(** * doll-backend: coordinate transformation and review visibility gating

    A shallow embedding of three pieces of the backend:

    - [tmToWgs84] (src/routes/geocode.js and src/routes/favorites.js, the
      two copies are identical): EPSG:5174 planar coordinates to WGS84;
    - [formattedReviews] (GET /api/reviews/store/:storeId): the projection
      of a page of reviews, blinded by position unless the store is
      unlocked;
    - [unlockHandler] (POST /api/reviews/unlock/:storeId): the write to the
      unlock ledger.

    JavaScript numbers are IEEE 754 binary64 values; they are modelled by
    Rocq's primitive floats, which are the same binary64 values with the
    same rounding and the same comparisons (false on NaN). *)

From Stdlib Require Import ZArith Floats Bool.
From stdpp Require Import base option list strings gmap.

Set Warnings "-inexact-float,-notation-for-abbreviation".
Set Default Proof Using "Type".

(* ===================================================================== *)
(** * Part I. Definitions *)
(* ===================================================================== *)

(** ** JavaScript numbers *)

Module Js.

(** The arguments [tmToWgs84] receives: the coordinate columns are read
    from the database as numbers or strings, or are missing. *)
Inductive value : Type :=
| Number (f : float)
| String (s : string)
| Nullish.                       (* null or undefined *)

(** Global [isFinite] and [isNaN] on a number. *)
Definition isFinite (f : float) : bool := PrimFloat.is_finite f.
Definition isNaN (f : float) : bool := PrimFloat.is_nan f.

(** The relational operators on numbers; all are false on NaN. *)
Definition lt (a b : float) : bool := PrimFloat.ltb a b.
Definition le (a b : float) : bool := PrimFloat.leb a b.
Definition gt (a b : float) : bool := PrimFloat.ltb b a.
Definition ge (a b : float) : bool := PrimFloat.leb b a.

(** [Math.min] and [Math.max] of two numbers: NaN if either is NaN, and
    -0 is smaller than +0. *)
Definition Math_min (a b : float) : float :=
  if PrimFloat.is_nan a || PrimFloat.is_nan b then PrimFloat.nan
  else if PrimFloat.ltb a b then a
  else if PrimFloat.ltb b a then b
  else if PrimFloat.get_sign a then a else b.

Definition Math_max (a b : float) : float :=
  if PrimFloat.is_nan a || PrimFloat.is_nan b then PrimFloat.nan
  else if PrimFloat.ltb a b then b
  else if PrimFloat.ltb b a then a
  else if PrimFloat.get_sign a then b else a.

(** [parseFloat] first converts its argument to a string.  For a number
    that string is its shortest round-trip decimal form, which parses back
    to the same number, except that -0 prints as "0" and so comes back as
    +0; NaN and the infinities print as "NaN", "Infinity", "-Infinity"
    and parse back to themselves.  null and undefined print as words that
    are not numeric literals.  Parsing the text of a real string argument
    is the host's job and is taken as [parse_text]. *)
Definition parseFloat (parse_text : string -> float) (v : value) : float :=
  match v with
  | Number f => if PrimFloat.is_zero f then PrimFloat.zero else f
  | String s => parse_text s
  | Nullish => PrimFloat.nan
  end.

End Js.

(** ** CoordinateTransformer: [tmToWgs84] *)

Record GeoCoordinate : Type := { lat : float; lng : float }.

(** The Seoul city-centre default, [{ lat: 37.5665, lng: 126.978 }]. *)
Definition seoul : GeoCoordinate := {| lat := 37.5665; lng := 126.978 |}.

(** The empirical bias added after projecting. *)
Definition lat_bias : float := 0.002747.
Definition lng_bias : float := 0.00079.

(** [proj4(epsg5174, wgs84, [tmX, tmY])] is a call into the proj4 library.
    It either throws ([None]) or returns an array whose first two elements
    are bound, in this order, to [lng] and [lat]. *)
Definition projector : Type := float -> float -> option (float * float).

Section CoordinateTransformer.

Variable parse_text : string -> float.
Variable proj4 : projector.

(** The two range tests of the function body. *)
Definition already_wgs84 (tmX tmY : float) : bool :=
  Js.ge tmX 100 && Js.le tmX 140 && Js.ge tmY 30 && Js.le tmY 45.

Definition outside_tm_range (tmX tmY : float) : bool :=
  Js.lt tmX 50000 || Js.gt tmX 350000 || Js.lt tmY 0 || Js.gt tmY 700000.

Definition not_usable (tmX tmY : float) : bool :=
  negb (Js.isFinite tmX) || negb (Js.isFinite tmY)
  || Js.isNaN tmX || Js.isNaN tmY.

(** The last statement of the [try] block. *)
Definition clamp_lat (correctedLat : float) : float :=
  Js.Math_max 33 (Js.Math_min 43 correctedLat).
Definition clamp_lng (correctedLng : float) : float :=
  Js.Math_max 124 (Js.Math_min 132 correctedLng).

Definition tmToWgs84 (x y : Js.value) : GeoCoordinate :=
  let tmX := Js.parseFloat parse_text x in
  let tmY := Js.parseFloat parse_text y in
  if not_usable tmX tmY then seoul
  else if already_wgs84 tmX tmY then {| lat := tmY; lng := tmX |}
  else if outside_tm_range tmX tmY then seoul
  else
    match proj4 tmX tmY with
    | Some (lng0, lat0) =>
        let correctedLat := (lat0 + lat_bias)%float in
        let correctedLng := (lng0 + lng_bias)%float in
        {| lat := clamp_lat correctedLat; lng := clamp_lng correctedLng |}
    | None => seoul                       (* the [catch] clause *)
    end.

End CoordinateTransformer.

(** The Korea bounding box of the specification. *)
Definition in_korea_box (g : GeoCoordinate) : bool :=
  Js.le 33 (lat g) && Js.le (lat g) 43 && Js.le 124 (lng g) && Js.le (lng g) 132.

(** The planar bounds in the specification's words: x in [50000, 350000]
    and y in [0, 700000].  [outside_tm_range] is the source's test. *)
Definition in_planar_bounds (tmX tmY : float) : bool :=
  Js.le 50000 tmX && Js.le tmX 350000 && Js.le 0 tmY && Js.le tmY 700000.

(** Hosts for running the definitions on concrete inputs.  proj4 itself is
    not part of the repository; [proj4_linear] is a flat approximation of
    the inverse projection around the origin of EPSG:5174 (about 111 km per
    degree of latitude and 88 km per degree of longitude at 38N), and
    [proj4_throwing] is a projection that always throws, [proj4_nan] one
    that answers NaN for both coordinates.  [parse_unreadable]
    reads every string as NaN, as [parseFloat] does for text that does not
    start with a numeric literal. *)
Definition proj4_linear : projector := fun tmX tmY =>
  Some ((127 + (tmX - 200000) / 88000)%float, (38 + (tmY - 500000) / 111000)%float).
Definition proj4_throwing : projector := fun _ _ => None.
Definition proj4_nan : projector := fun _ _ => Some (PrimFloat.nan, PrimFloat.nan).
Definition parse_unreadable : string -> float := fun _ => PrimFloat.nan.

(** ** ReviewVisibilityGate: [formattedReviews] *)

(** The user row joined into a review by [include: { user: { select: ... } }]. *)
Module User.
Record t : Type := { id : string; nickname : option string; avatar : option string }.
End User.

(** [req.user] as the handlers read it: only its [id] is used.  A request
    without a user has no such object; [option] models that falsy value. *)
Module Viewer.
Record t : Type := { id : string }.
End Viewer.

(** A row of [prisma.review.findMany].  Nullable columns are options, with
    [None] for null. *)
Module Review.
Record t : Type := {
  id : Z;
  storeId : Z;
  rating : Z;
  content : string;
  images : list string;
  tags : list string;
  dollCount : option Z;
  spentAmount : option Z;
  dollImages : list string;
  userId : option string;
  userName : option string;
  user : option User.t;
  createdAt : Z;
  updatedAt : Z
}.
End Review.

(** An element of the [data] array of the response.  [isOwner] is the value
    of [req.user && review.userId === req.user.id]: a boolean when
    [req.user] is an object, and otherwise the falsy [req.user] itself
    (undefined), which is [None] here.  [userAvatar] is
    [review.user?.avatar], with [None] for undefined or null. *)
Module Formatted.
Record t : Type := {
  id : Z;
  rating : Z;
  content : string;
  images : list string;
  tags : list string;
  dollCount : option Z;
  spentAmount : option Z;
  dollImages : list string;
  userName : option string;
  userAvatar : option string;
  isOwner : option bool;
  createdAt : Z;
  updatedAt : Z;
  isBlinded : bool
}.
End Formatted.

(** The text that replaces the content of a blinded review. *)
Definition blind_placeholder : string := "광고를 시청하면 후기를 볼 수 있어요".

(** [review.user ? review.user.nickname : review.userName] and
    [review.user?.avatar]. *)
Definition display_name (review : Review.t) : option string :=
  match Review.user review with
  | Some u => User.nickname u
  | None => Review.userName review
  end.

Definition display_avatar (review : Review.t) : option string :=
  match Review.user review with
  | Some u => User.avatar u
  | None => None
  end.

Definition isOwner_of (req_user : option Viewer.t) (review : Review.t) : option bool :=
  match req_user with
  | Some u => Some (bool_decide (Review.userId review = Some (Viewer.id u)))
  | None => None
  end.

Definition baseReview (req_user : option Viewer.t) (review : Review.t) : Formatted.t :=
  {| Formatted.id := Review.id review;
     Formatted.rating := Review.rating review;
     Formatted.content := Review.content review;
     Formatted.images := Review.images review;
     Formatted.tags := Review.tags review;
     Formatted.dollCount := Review.dollCount review;
     Formatted.spentAmount := Review.spentAmount review;
     Formatted.dollImages := Review.dollImages review;
     Formatted.userName := display_name review;
     Formatted.userAvatar := display_avatar review;
     Formatted.isOwner := isOwner_of req_user review;
     Formatted.createdAt := Review.createdAt review;
     Formatted.updatedAt := Review.updatedAt review;
     Formatted.isBlinded := false |}.

(** The object spread [{ ...baseReview, content: ..., images: [], tags: [],
    dollImages: [], isBlinded: true }]: five fields are overwritten, the
    others are copied. *)
Definition blind (b : Formatted.t) : Formatted.t :=
  {| Formatted.id := Formatted.id b;
     Formatted.rating := Formatted.rating b;
     Formatted.content := blind_placeholder;
     Formatted.images := [];
     Formatted.tags := [];
     Formatted.dollCount := Formatted.dollCount b;
     Formatted.spentAmount := Formatted.spentAmount b;
     Formatted.dollImages := [];
     Formatted.userName := Formatted.userName b;
     Formatted.userAvatar := Formatted.userAvatar b;
     Formatted.isOwner := Formatted.isOwner b;
     Formatted.createdAt := Formatted.createdAt b;
     Formatted.updatedAt := Formatted.updatedAt b;
     Formatted.isBlinded := true |}.

(** The callback of [reviews.map((review, index) => ...)]. *)
Definition formatReview (req_user : option Viewer.t) (isUnlocked : bool)
    (index : nat) (review : Review.t) : Formatted.t :=
  if negb isUnlocked && (0 <? index)%nat
  then blind (baseReview req_user review)
  else baseReview req_user review.

Definition formattedReviews (req_user : option Viewer.t) (isUnlocked : bool)
    (reviews : list Review.t) : list Formatted.t :=
  imap (formatReview req_user isUnlocked) reviews.

(** ** The unlock ledger *)

Module Unlock.
Record t : Type := { userId : string; storeId : Z; unlockedAt : Z }.
End Unlock.

(** The two tables the unlock handlers touch.  Only the existence of a
    [gameBusiness] row matters to them, so a row is its business name. *)
Record Db : Type := {
  gameBusiness : gmap Z string;
  userUnlockedStoreReview : list Unlock.t
}.

(** A Prisma call reads or writes the database and may throw. *)
Definition Prisma (A : Type) : Type := Db -> option A * Db.

#[export] Instance prisma_ret : MRet Prisma := fun A a db => (Some a, db).
#[export] Instance prisma_bind : MBind Prisma := fun A B k m db =>
  match m db with
  | (Some a, db') => k a db'
  | (None, db') => (None, db')
  end.
Definition throw {A} : Prisma A := fun db => (None, db).
Definition try_catch {A} (body : Prisma A) (handler : A) : Prisma A :=
  fun db => match body db with
            | (Some a, db') => (Some a, db')
            | (None, db') => (Some handler, db')
            end.

Definition same_key (userId : string) (storeId : Z) (r : Unlock.t) : bool :=
  bool_decide (Unlock.userId r = userId) && bool_decide (Unlock.storeId r = storeId).

(** [prisma.gameBusiness.findUnique({ where: { id } })]. *)
Definition gameBusiness_findUnique (id : Z) : Prisma (option string) :=
  fun db => (Some (gameBusiness db !! id), db).

(** [prisma.userUnlockedStoreReview.findUnique] on the compound key
    [unique_user_store_review_unlock]. *)
Definition unlock_findUnique (userId : string) (storeId : Z) : Prisma (option Unlock.t) :=
  fun db => (Some (List.find (same_key userId storeId) (userUnlockedStoreReview db)), db).

(** [prisma.userUnlockedStoreReview.create]: the unique constraint on
    (userId, storeId) rejects a second row with the same key by throwing;
    otherwise the row is appended, stamped with the database clock [now]. *)
Definition unlock_create (now : Z) (userId : string) (storeId : Z) : Prisma Unlock.t :=
  fun db =>
    if existsb (same_key userId storeId) (userUnlockedStoreReview db)
    then (None, db)
    else
      let row := {| Unlock.userId := userId; Unlock.storeId := storeId;
                    Unlock.unlockedAt := now |} in
      (Some row, {| gameBusiness := gameBusiness db;
                    userUnlockedStoreReview := userUnlockedStoreReview db ++ [row] |}).

(** What [res.status(..).json(..)] sends from the unlock handler. *)
Record UnlockResponse : Type := {
  status : Z;
  success : option bool;               (* absent from the 500 body *)
  message : string;
  data : option (bool * Z)             (* { isUnlocked, unlockedAt } *)
}.

Definition res_not_found : UnlockResponse :=
  {| status := 404; success := Some false;
     message := "매장을 찾을 수 없습니다."; data := None |}.
Definition res_already (unlockedAt : Z) : UnlockResponse :=
  {| status := 200; success := Some true;
     message := "이미 해금된 매장입니다."; data := Some (true, unlockedAt) |}.
Definition res_unlocked (unlockedAt : Z) : UnlockResponse :=
  {| status := 200; success := Some true;
     message := "매장 리뷰가 해금되었습니다."; data := Some (true, unlockedAt) |}.
Definition res_error : UnlockResponse :=
  {| status := 500; success := None;
     message := "리뷰 해금 중 오류가 발생했습니다."; data := None |}.

Section UnlockHandlers.

(** [parseInt] of the route parameter; [None] stands for a result that
    Prisma refuses as an Int id by throwing (NaN for a parameter without
    leading digits). *)
Variable parseInt : string -> option Z.

Definition parsed_id (storeId : string) : Prisma Z :=
  match parseInt storeId with
  | Some n => mret n
  | None => throw
  end.

(** POST /api/reviews/unlock/:storeId, after [authenticateToken] has set
    [req.user.id = userId]. *)
Definition unlockHandler (now : Z) (userId : string) (storeId : string)
    : Prisma UnlockResponse :=
  try_catch
    (id ← parsed_id storeId;
     store ← gameBusiness_findUnique id;
     match store with
     | None => mret res_not_found
     | Some _ =>
         sid ← parsed_id storeId;
         existingUnlock ← unlock_findUnique userId sid;
         match existingUnlock with
         | Some existing => mret (res_already (Unlock.unlockedAt existing))
         | None =>
             sid' ← parsed_id storeId;
             unlock ← unlock_create now userId sid';
             mret (res_unlocked (Unlock.unlockedAt unlock))
         end
     end)
    res_error.

(** The unlock lookup at the start of GET /api/reviews/store/:storeId:
    [isUnlocked] stays false without [req.user], and is [!!unlockRecord]
    with one.  The handler's [catch] answers 500 when the lookup throws. *)
Definition resolveIsUnlocked (req_user : option Viewer.t) (storeId : string)
    : Prisma bool :=
  match req_user with
  | None => mret false
  | Some u =>
      sid ← parsed_id storeId;
      unlockRecord ← unlock_findUnique (Viewer.id u) sid;
      mret (bool_decide (is_Some unlockRecord))
  end.

End UnlockHandlers.

(** Every ledger row points at an existing store, and no two rows share a
    key: the foreign key and the unique constraint of the table. *)
Definition ledger_consistent (db : Db) : Prop :=
  (forall r, r ∈ userUnlockedStoreReview db -> is_Some (gameBusiness db !! Unlock.storeId r))
  /\ NoDup ((fun r => (Unlock.userId r, Unlock.storeId r)) <$> userUnlockedStoreReview db).


(** ** What the specification says of an output review *)

(** Unredacted: the four content fields are those of the row and the
    review is not marked blinded. *)
Definition unredacted (r : Review.t) (out : Formatted.t) : Prop :=
  Formatted.content out = Review.content r
  /\ Formatted.images out = Review.images r
  /\ Formatted.tags out = Review.tags r
  /\ Formatted.dollImages out = Review.dollImages r
  /\ Formatted.isBlinded out = false.

(** Blinded: placeholder content, empty media, marked blinded; rating and
    author display name still those of the row. *)
Definition blinded (r : Review.t) (out : Formatted.t) : Prop :=
  Formatted.content out = blind_placeholder
  /\ Formatted.images out = []
  /\ Formatted.tags out = []
  /\ Formatted.dollImages out = []
  /\ Formatted.isBlinded out = true
  /\ Formatted.rating out = Review.rating r
  /\ Formatted.userName out = display_name r.

(** The owner flag of the specification, as a boolean: the viewer is
    authenticated and is the author. *)
Definition is_author (req_user : option Viewer.t) (r : Review.t) : bool :=
  match req_user with
  | Some u => bool_decide (Review.userId r = Some (Viewer.id u))
  | None => false
  end.

(** What the code gives for the owner flag: true exactly for the
    authenticated author, the boolean [is_author] for every authenticated
    viewer, and no boolean at all for a request without a user. *)
Definition owner_flag (req_user : option Viewer.t) (r : Review.t)
    (out : Formatted.t) : Prop :=
  (Formatted.isOwner out = Some true <-> is_author req_user r = true)
  /\ match req_user with
     | Some _ => Formatted.isOwner out = Some (is_author req_user r)
     | None => Formatted.isOwner out = None
     end.

(** The fields the blinding leaves alone, compared with the row. *)
Definition carried_over (r : Review.t) (out : Formatted.t) : Prop :=
  Formatted.id out = Review.id r
  /\ Formatted.dollCount out = Review.dollCount r
  /\ Formatted.spentAmount out = Review.spentAmount r
  /\ Formatted.userName out = display_name r
  /\ Formatted.userAvatar out = display_avatar r
  /\ Formatted.createdAt out = Review.createdAt r
  /\ Formatted.updatedAt out = Review.updatedAt r.

(** ** Sample data *)

Local Open Scope Z_scope.

Definition alice : Viewer.t := {| Viewer.id := "clx-alice" |}.
Definition bob : Viewer.t := {| Viewer.id := "clx-bob" |}.

(** A review written by a logged-in user, with the user row joined in. *)
Definition review_by (rid : Z) (author : string) (nick : string) (stars : Z)
    (text : string) : Review.t :=
  {| Review.id := rid; Review.storeId := 7; Review.rating := stars;
     Review.content := text; Review.images := ["https://img/" +:+ author];
     Review.tags := ["claw"]; Review.dollCount := Some 2;
     Review.spentAmount := Some 5000; Review.dollImages := ["https://doll/1"];
     Review.userId := Some author; Review.userName := None;
     Review.user := Some {| User.id := author; User.nickname := Some nick;
                            User.avatar := Some "https://avatar/1" |};
     Review.createdAt := 1700000000 + rid; Review.updatedAt := 1700000000 + rid |}.

(** A review left without logging in: only a display name. *)
Definition review_anonymous (rid : Z) (name : string) (stars : Z) (text : string)
    : Review.t :=
  {| Review.id := rid; Review.storeId := 7; Review.rating := stars;
     Review.content := text; Review.images := []; Review.tags := ["easy"];
     Review.dollCount := None; Review.spentAmount := None; Review.dollImages := [];
     Review.userId := None; Review.userName := Some name; Review.user := None;
     Review.createdAt := 1700000000 + rid; Review.updatedAt := 1700000000 + rid |}.

Definition R0 : Review.t := review_by 30 "clx-bob" "bob" 5 "great machines".
Definition R1 : Review.t := review_by 20 "clx-alice" "alice" 4 "won two dolls".
Definition R2 : Review.t := review_anonymous 10 "guest" 2 "too hard".

(** A database with store 7 and one ledger row, and the host's [parseInt]
    on the route parameters used below. *)
Definition sample_db : Db :=
  {| gameBusiness := {[ 7 := "인형뽑기방" ]};
     userUnlockedStoreReview :=
       [ {| Unlock.userId := "clx-alice"; Unlock.storeId := 7;
            Unlock.unlockedAt := 1700000500 |} ] |}.

Definition sample_parseInt (s : string) : option Z :=
  if String.eqb s "7" then Some 7
  else if String.eqb s "8" then Some 8
  else None.

Local Close Scope Z_scope.

(** ** GET /api/reviews/unlock-status/:storeId *)

(** The 200 body is [{ success: true, data: { isUnlocked, unlockedAt } }];
    [unlockedAt] is [unlockRecord?.unlockedAt || null], and a stored
    [unlockedAt] is a Date, which is never falsy.  The 500 body has neither
    [success] nor [data]. *)
Module StatusResponse.
Record t : Type := {
  status : Z;
  success : option bool;
  data : option (bool * option Z)
}.
End StatusResponse.

Definition status_ok (unlockRecord : option Unlock.t) : StatusResponse.t :=
  {| StatusResponse.status := 200;
     StatusResponse.success := Some true;
     StatusResponse.data :=
       Some (bool_decide (is_Some unlockRecord), Unlock.unlockedAt <$> unlockRecord) |}.

Definition status_error : StatusResponse.t :=
  {| StatusResponse.status := 500; StatusResponse.success := None;
     StatusResponse.data := None |}.

Section UnlockStatus.

Variable parseInt : string -> option Z.

Definition unlockStatusHandler (userId storeId : string) : Prisma StatusResponse.t :=
  try_catch
    (sid ← parsed_id parseInt storeId;
     unlockRecord ← unlock_findUnique userId sid;
     mret (status_ok unlockRecord))
    status_error.

End UnlockStatus.

(** ** GET /api/reviews/store/:storeId, around [formattedReviews] *)

(** The [orderBy] chosen from the [sortBy] query parameter. *)
Inductive OrderBy : Type := CreatedAtDesc | RatingDesc | RatingAsc.

Definition orderBy_of (sortBy : string) : OrderBy :=
  if String.eqb sortBy "rating_high" then RatingDesc
  else if String.eqb sortBy "rating_low" then RatingAsc
  else CreatedAtDesc.

Module Pagination.
Record t : Type := { total : nat; limit : nat; offset : nat; hasMore : bool }.
End Pagination.

Module ReviewList.
Record t : Type := {
  data : list Formatted.t;
  isUnlocked : bool;
  pagination : Pagination.t
}.
End ReviewList.

Inductive ListResponse : Type :=
| ListOk (body : ReviewList.t)          (* 200, success: true *)
| ListError.                            (* 500 *)

Section ReviewListHandler.

Variable parseInt : string -> option Z.

(** The review table as the database answers for it: [store_reviews sid o]
    is the result of [findMany] with [where: { storeId: sid }] and
    [orderBy: o], before [skip] and [take].  [count] with the same [where]
    is its length.  [limit] and [offset] are the values of
    [parseInt(limit)] and [parseInt(offset)], taken as non-negative
    integers. *)
Variable store_reviews : Z -> OrderBy -> list Review.t.

Definition getStoreReviews (req_user : option Viewer.t) (storeId sortBy : string)
    (limit offset : nat) : Prisma ListResponse :=
  try_catch
    (let orderBy := orderBy_of sortBy in
     isUnlocked ← resolveIsUnlocked parseInt req_user storeId;
     sid ← parsed_id parseInt storeId;
     let reviews := take limit (drop offset (store_reviews sid orderBy)) in
     sid' ← parsed_id parseInt storeId;
     let totalCount := length (store_reviews sid' orderBy) in
     mret (ListOk
             {| ReviewList.data := formattedReviews req_user isUnlocked reviews;
                ReviewList.isUnlocked := isUnlocked;
                ReviewList.pagination :=
                  {| Pagination.total := totalCount;
                     Pagination.limit := limit;
                     Pagination.offset := offset;
                     Pagination.hasMore := (offset + limit <? totalCount)%nat |} |}))
    ListError.

End ReviewListHandler.

(** The unlock state the list route resolves, read off the ledger. *)
Definition resolved (req_user : option Viewer.t) (sid : Z) (db : Db) : bool :=
  match req_user with
  | None => false
  | Some u =>
      bool_decide (is_Some (List.find (same_key (Viewer.id u) sid)
                              (userUnlockedStoreReview db)))
  end.

(** Two rows that differ at most in what the blinding hides. *)
Definition same_outside_content (r r' : Review.t) : Prop :=
  Review.id r = Review.id r'
  /\ Review.rating r = Review.rating r'
  /\ Review.dollCount r = Review.dollCount r'
  /\ Review.spentAmount r = Review.spentAmount r'
  /\ Review.userId r = Review.userId r'
  /\ Review.userName r = Review.userName r'
  /\ Review.user r = Review.user r'
  /\ Review.createdAt r = Review.createdAt r'
  /\ Review.updatedAt r = Review.updatedAt r'.

(** ** GET /api/reviews/top-catchers *)

(** A group of [prisma.review.groupBy({ by: ['userId'], _sum: ... })]; the
    sums are null when every summed column of the group is null. *)
Module Aggregate.
Record t : Type := {
  userId : string;
  sum_dollCount : option Z;
  sum_spentAmount : option Z
}.
End Aggregate.

(** A user row with [select: { id, phone, nickname }]. *)
Module Account.
Record t : Type := { id : string; phone : option string; nickname : option string }.
End Account.

Module Catcher.
Record t : Type := {
  userId : string;
  phone : option string;
  nickname : option string;
  totalDollCount : Z;
  totalSpentAmount : Z
}.
End Catcher.

Module RankedCatcher.
Record t : Type := {
  rank : nat;
  maskedPhone : string;
  nickname : string;
  totalDollCount : Z;
  totalSpentAmount : Z
}.
End RankedCatcher.

(** [s || null] on a nullable string: null and the empty string are falsy. *)
Definition truthy_string (s : option string) : option string :=
  match s with
  | Some t => if String.eqb t "" then None else Some t
  | None => None
  end.

(** The class [[0-9]] on a character.  Strings here are UTF-8 bytes and
    JavaScript's are UTF-16 code units; a digit is one unit in both, and no
    unit of another character falls in the digit range, so the digits kept
    by [replace(/[^0-9]/g, '')] are the same. *)
Definition is_digit (c : Ascii.ascii) : bool :=
  (48 <=? Ascii.nat_of_ascii c)%nat && (Ascii.nat_of_ascii c <=? 57)%nat.

Definition phoneDigits_of (phone : string) : list Ascii.ascii :=
  List.filter is_digit (String.list_ascii_of_string phone).

Definition maskPhone (phone : option string) : string :=
  match truthy_string phone with
  | Some p =>
      let phoneDigits := phoneDigits_of p in
      if (4 <=? length phoneDigits)%nat then
        let lastFour := drop (length phoneDigits - 4) phoneDigits in
        String.string_of_list_ascii (take 2 lastFour) +:+ "**"
      else "****"
  | None => "****"
  end.

(** The callback joining a group with its user row. *)
Definition toCatcher (users : list Account.t) (agg : Aggregate.t) : Catcher.t :=
  let user := List.find (fun u => bool_decide (Account.id u = Aggregate.userId agg)) users in
  {| Catcher.userId := Aggregate.userId agg;
     Catcher.phone := truthy_string (user ≫= Account.phone);
     Catcher.nickname := truthy_string (user ≫= Account.nickname);
     Catcher.totalDollCount := default 0%Z (Aggregate.sum_dollCount agg);
     Catcher.totalSpentAmount := default 0%Z (Aggregate.sum_spentAmount agg) |}.

Definition formatCatcher (index : nat) (catcher : Catcher.t) : RankedCatcher.t :=
  {| RankedCatcher.rank := index + 1;
     RankedCatcher.maskedPhone := maskPhone (Catcher.phone catcher);
     RankedCatcher.nickname := default "익명" (truthy_string (Catcher.nickname catcher));
     RankedCatcher.totalDollCount := Catcher.totalDollCount catcher;
     RankedCatcher.totalSpentAmount := Catcher.totalSpentAmount catcher |}.

Section TopCatchers.

(** The user table, the groups of the first query in its order before
    [take: 3], the groups of the second query for a given [notIn] list, and
    the order [sort(() => Math.random() - 0.5)] leaves its array in. *)
Variable users : list Account.t.
Variable ranked : list Aggregate.t.
Variable others : list string -> list Aggregate.t.
Variable shuffle : list Catcher.t -> list Catcher.t.

(** [ids.map(a => a.userId).filter(Boolean)] and
    [findMany({ where: { id: { in: ids } } })]. *)
Definition truthy_ids (aggs : list Aggregate.t) : list string :=
  List.filter (fun i => negb (String.eqb i "")) (Aggregate.userId <$> aggs).

Definition users_in (ids : list string) : list Account.t :=
  List.filter (fun u => bool_decide (Account.id u ∈ ids)) users.

Definition allCatchers : list Catcher.t :=
  let topCatcherAggregates := take 3 ranked in
  let topUsers := users_in (truthy_ids topCatcherAggregates) in
  let topCatchers := toCatcher topUsers <$> topCatcherAggregates in
  if (length topCatchers <? 3)%nat then
    let needed := 3 - length topCatchers in
    let existingUserIds :=
      List.filter (fun i => negb (String.eqb i "")) (Catcher.userId <$> topCatchers) in
    let additionalAggregates := others existingUserIds in
    let additionalUsersData := users_in (truthy_ids additionalAggregates) in
    let additionalUsers := toCatcher additionalUsersData <$> additionalAggregates in
    topCatchers ++ take needed (shuffle additionalUsers)
  else topCatchers.

Definition formattedCatchers : list RankedCatcher.t := imap formatCatcher allCatchers.

End TopCatchers.

(** ** GET /api/reviews/stats/:storeId: the rating distribution *)

(** [stats] is the answer of [groupBy({ by: ['rating'], _count })], one
    pair (rating, count) per group; the object starts with the keys 1 to 5
    at 0 and each group overwrites or adds its key. *)
Definition ratingDistribution (stats : list (Z * nat)) : gmap Z nat :=
  foldl (fun dist stat => <[stat.1 := stat.2]> dist)
        (list_to_map [(1, 0%nat); (2, 0%nat); (3, 0%nat); (4, 0%nat); (5, 0%nat)]%Z)
        stats.

(** ** Favorites: POST, DELETE and GET check on /api/favorites/:storeId *)

Section Favorites.

(** The type of a favorite's id is fixed by the database schema, which is
    not part of the sources read here; the handlers only store it, compare
    it and test it for truthiness ([favorite?.id || null]). *)
Variable FavoriteId : Type.
Context `{EqDecision FavoriteId}.
Variable id_truthy : FavoriteId -> bool.

(** The id the database gives to a new row of a table. *)
Variable new_id : list (FavoriteId * string * Z) -> FavoriteId.

(** A row of the favorite table: (id, userId, storeId). *)
Definition FavoriteRow : Type := (FavoriteId * string * Z)%type.

Definition fav_id (row : FavoriteRow) : FavoriteId := row.1.1.
Definition fav_userId (row : FavoriteRow) : string := row.1.2.
Definition fav_storeId (row : FavoriteRow) : Z := row.2.

(** The store table by business name, and the favorite table. *)
Record FavDb : Type := {
  fav_stores : gmap Z string;
  favorite : list FavoriteRow
}.

(** The responses of the three handlers, by status and payload. *)
Inductive FavResponse : Type :=
| Fav401                                     (* login required *)
| Fav400                                     (* invalid store id *)
| Fav404                                     (* store, or favorite, not found *)
| Fav409                                     (* already a favorite *)
| Fav201 (id : FavoriteId) (storeName : string)
| Fav200_deleted (storeName : string)
| Fav200_check (isFavorite : bool) (favoriteId : option FavoriteId)
| Fav500.

(** [!userId]: no user, or an empty id. *)
Definition valid_user (userId : option string) : option string := truthy_string userId.

(** [!storeId || isNaN(storeId)] on [parseInt(req.params.storeId)], where
    [None] is NaN: NaN and 0 are refused. *)
Definition valid_store (storeId : option Z) : option Z :=
  match storeId with
  | Some n => if (n =? 0)%Z then None else Some n
  | None => None
  end.

Definition fav_key (userId : string) (storeId : Z) (row : FavoriteRow) : bool :=
  bool_decide (fav_userId row = userId) && bool_decide (fav_storeId row = storeId).

(** [findUnique] on the compound key [unique_user_store_favorite]. *)
Definition favorite_findUnique (userId : string) (storeId : Z) (db : FavDb)
    : option FavoriteRow :=
  List.find (fav_key userId storeId) (favorite db).

Definition addFavorite (userId : option string) (storeId : option Z) (db : FavDb)
    : FavResponse * FavDb :=
  match valid_user userId with
  | None => (Fav401, db)
  | Some uid =>
      match valid_store storeId with
      | None => (Fav400, db)
      | Some sid =>
          match fav_stores db !! sid with
          | None => (Fav404, db)
          | Some storeName =>
              match favorite_findUnique uid sid db with
              | Some _ => (Fav409, db)
              | None =>
                  (* [create]; the unique constraint would throw on a
                     second row with the key, answered by the catch *)
                  if existsb (fav_key uid sid) (favorite db) then (Fav500, db)
                  else
                    let row := (new_id (favorite db), uid, sid) in
                    (Fav201 (fav_id row) storeName,
                     {| fav_stores := fav_stores db;
                        favorite := favorite db ++ [row] |})
              end
          end
      end
  end.

(** [delete({ where: { id } })] removes the row with that id.  The store
    name of the answer is read from the row found before, with its store
    joined in; with no such store the read throws after the delete. *)
Definition removeFavorite (userId : option string) (storeId : option Z) (db : FavDb)
    : FavResponse * FavDb :=
  match valid_user userId with
  | None => (Fav401, db)
  | Some uid =>
      match valid_store storeId with
      | None => (Fav400, db)
      | Some sid =>
          match favorite_findUnique uid sid db with
          | None => (Fav404, db)
          | Some row =>
              let db' :=
                {| fav_stores := fav_stores db;
                   favorite :=
                     List.filter (fun r => negb (bool_decide (fav_id r = fav_id row)))
                                 (favorite db) |} in
              match fav_stores db !! fav_storeId row with
              | Some storeName => (Fav200_deleted storeName, db')
              | None => (Fav500, db')
              end
          end
      end
  end.

Definition checkFavorite (userId : option string) (storeId : option Z) (db : FavDb)
    : FavResponse * FavDb :=
  match valid_user userId with
  | None => (Fav401, db)
  | Some uid =>
      match valid_store storeId with
      | None => (Fav400, db)
      | Some sid =>
          let found := favorite_findUnique uid sid db in
          (Fav200_check (bool_decide (is_Some found))
             (match found with
              | Some row => if id_truthy (fav_id row) then Some (fav_id row) else None
              | None => None
              end),
           db)
      end
  end.

(** The table constraints: ids are unique and so are (userId, storeId)
    pairs. *)
Definition favorites_consistent (db : FavDb) : Prop :=
  NoDup (fav_id <$> favorite db)
  /\ NoDup ((fun r => (fav_userId r, fav_storeId r)) <$> favorite db).

End Favorites.

(** ** GET /api/admin/active-ads: the coordinates of an ad *)

(** Truthiness of a coordinate column: 0, -0, NaN, the empty string, null
    and undefined are falsy. *)
Definition js_truthy (v : Js.value) : bool :=
  match v with
  | Js.Number f => negb (PrimFloat.is_zero f || PrimFloat.is_nan f)
  | Js.String s => negb (String.eqb s "")
  | Js.Nullish => false
  end.

(** [ad.store] with its two coordinate columns, or no store. *)
Definition adCoordinates (parse_text : string -> float) (proj4 : projector)
    (store : option (Js.value * Js.value)) : GeoCoordinate :=
  match store with
  | Some (x, y) =>
      if js_truthy x && js_truthy y then tmToWgs84 parse_text proj4 x y else seoul
  | None => seoul
  end.

(** ** More sample data *)

Local Open Scope Z_scope.

(** R1 after its author rewrote the text and swapped the pictures. *)
Definition R1_edited : Review.t :=
  {| Review.id := Review.id R1; Review.storeId := Review.storeId R1;
     Review.rating := Review.rating R1;
     Review.content := "rewritten"; Review.images := []; Review.tags := ["new"];
     Review.dollCount := Review.dollCount R1;
     Review.spentAmount := Review.spentAmount R1;
     Review.dollImages := [];
     Review.userId := Review.userId R1; Review.userName := Review.userName R1;
     Review.user := Review.user R1;
     Review.createdAt := Review.createdAt R1; Review.updatedAt := Review.updatedAt R1 |}.

(** Store 7 has the three sample reviews; their dates and ratings both
    fall from R0 to R2. *)
Definition sample_store_reviews (sid : Z) (o : OrderBy) : list Review.t :=
  if sid =? 7 then
    match o with
    | RatingAsc => [R2; R1; R0]
    | _ => [R0; R1; R2]
    end
  else [].

Definition sample_users : list Account.t :=
  [ {| Account.id := "clx-alice"; Account.phone := Some "010-1234-5678";
       Account.nickname := Some "alice" |};
    {| Account.id := "clx-bob"; Account.phone := Some "01098765432";
       Account.nickname := None |};
    {| Account.id := "clx-carol"; Account.phone := Some "+82 10 5555 0199";
       Account.nickname := Some "" |} ].

Definition sample_ranked : list Aggregate.t :=
  [ {| Aggregate.userId := "clx-alice"; Aggregate.sum_dollCount := Some 9;
       Aggregate.sum_spentAmount := Some 30000 |} ].

Definition sample_others (notIn : list string) : list Aggregate.t :=
  [ {| Aggregate.userId := "clx-bob"; Aggregate.sum_dollCount := Some 0;
       Aggregate.sum_spentAmount := None |};
    {| Aggregate.userId := "clx-carol"; Aggregate.sum_dollCount := None;
       Aggregate.sum_spentAmount := Some 1000 |} ].

(** A favorite table with integer ids handed out in increasing order. *)
Definition sample_new_id (rows : list (Z * string * Z)) : Z :=
  1 + foldr Z.max 0 ((fun row => row.1.1) <$> rows).

Definition sample_id_truthy (i : Z) : bool := negb (i =? 0).

Definition sample_favorites : FavDb Z :=
  {| fav_stores := {[ 7 := "인형뽑기방" ]};
     favorite := [ (1, "clx-bob", 7) ] |}.

Local Close Scope Z_scope.

(* ===================================================================== *)
(** * Part II. Facts about binary64 comparisons *)
(* ===================================================================== *)

(** The comparisons of primitive floats are specified through the
    structural view [Prim2SF]; the facts below are first shown on that view
    and then carried back. *)

Section SpecCompare.

Lemma SFcompare_antisym (a b : spec_float) (c : comparison) :
  SFcompare a b = Some c -> SFcompare b a = Some (CompOpp c).
Proof.
  destruct a as [sa|sa| |sa ma ea], b as [sb|sb| |sb mb eb]; simpl;
    try discriminate; intros [= <-].
  all: try (destruct sa; try destruct sb; reflexivity).
  all: try (destruct sb; reflexivity).
  rewrite (Z.compare_antisym ea eb), (Pos.compare_cont_antisym mb ma Eq).
  destruct sa, sb; simpl; try reflexivity;
    destruct (ea ?= eb)%Z; simpl; try reflexivity;
    rewrite ?CompOpp_involutive; try reflexivity.
  now rewrite (Pos.compare_cont_antisym ma mb Eq).
Qed.

Lemma SFcompare_defined (a b : spec_float) :
  a <> S754_nan -> b <> S754_nan -> exists c, SFcompare a b = Some c.
Proof.
  destruct a, b; simpl; intros Ha Hb; try congruence; eauto.
Qed.

Lemma SFcompare_refl (a : spec_float) :
  a <> S754_nan -> SFcompare a a = Some Eq.
Proof.
  intros Ha. destruct (SFcompare_defined a a Ha Ha) as [c Hc].
  pose proof (SFcompare_antisym _ _ _ Hc) as Hc'.
  rewrite Hc in Hc'. destruct c; try discriminate. exact Hc.
Qed.

Lemma SFltb_SFleb (a b : spec_float) : SFltb a b = true -> SFleb a b = true.
Proof.
  unfold SFltb, SFleb. destruct (SFcompare a b) as [[]|]; congruence.
Qed.

Lemma SFltb_false_SFleb (a b : spec_float) :
  a <> S754_nan -> b <> S754_nan -> SFltb b a = false -> SFleb a b = true.
Proof.
  intros Ha Hb. unfold SFltb, SFleb.
  destruct (SFcompare_defined a b Ha Hb) as [c Hc].
  rewrite Hc, (SFcompare_antisym _ _ _ Hc). destruct c; simpl; congruence.
Qed.

End SpecCompare.

Section FloatCompare.

Lemma is_nan_Prim2SF (f : float) : is_nan f = false -> Prim2SF f <> S754_nan.
Proof.
  intros Hf Heq. unfold is_nan in Hf. rewrite FloatAxioms.eqb_spec, Heq in Hf.
  discriminate.
Qed.

Lemma Prim2SF_is_nan (f : float) : Prim2SF f <> S754_nan -> is_nan f = false.
Proof.
  intros Hf. unfold is_nan. rewrite FloatAxioms.eqb_spec. unfold SFeqb.
  now rewrite (SFcompare_refl _ Hf).
Qed.

Lemma ltb_leb (a b : float) : (a <? b)%float = true -> (a <=? b)%float = true.
Proof. rewrite FloatAxioms.ltb_spec, FloatAxioms.leb_spec. apply SFltb_SFleb. Qed.

Lemma ltb_false_leb (a b : float) :
  is_nan a = false -> is_nan b = false ->
  (b <? a)%float = false -> (a <=? b)%float = true.
Proof.
  intros Ha Hb. rewrite FloatAxioms.ltb_spec, FloatAxioms.leb_spec.
  apply SFltb_false_SFleb; now apply is_nan_Prim2SF.
Qed.

Lemma leb_refl (a : float) : is_nan a = false -> (a <=? a)%float = true.
Proof.
  intros Ha. rewrite FloatAxioms.leb_spec. unfold SFleb.
  now rewrite (SFcompare_refl _ (is_nan_Prim2SF _ Ha)).
Qed.

Lemma leb_not_nan_l (a b : float) : (a <=? b)%float = true -> is_nan a = false.
Proof.
  rewrite FloatAxioms.leb_spec. intros H. apply Prim2SF_is_nan. intros Heq.
  rewrite Heq in H. discriminate.
Qed.

Lemma leb_not_nan_r (a b : float) : (a <=? b)%float = true -> is_nan b = false.
Proof.
  rewrite FloatAxioms.leb_spec. intros H. apply Prim2SF_is_nan. intros Heq.
  rewrite Heq in H. unfold SFleb in H. destruct (Prim2SF a); discriminate.
Qed.

End FloatCompare.

(** The rounding functions of the structural view never produce a negative
    mantissa from a non-negative one, so a rounded sum is never NaN. *)
Section SpecRounding.

Variables prec emax : Z.

Lemma shr_1_nonneg (mrs : shr_record) :
  (0 <= shr_m mrs)%Z -> (0 <= shr_m (shr_1 mrs))%Z.
Proof.
  destruct mrs as [m r s0]; simpl.
  destruct m as [|[p|p|]|[p|p|]]; simpl; lia.
Qed.

Lemma iter_shr_1_nonneg (p : positive) (mrs : shr_record) :
  (0 <= shr_m mrs)%Z -> (0 <= shr_m (SpecFloat.iter_pos shr_1 p mrs))%Z.
Proof.
  revert mrs. induction p as [p IH|p IH|]; intros mrs Hm; simpl.
  - apply IH, IH, shr_1_nonneg, Hm.
  - apply IH, IH, Hm.
  - apply shr_1_nonneg, Hm.
Qed.

Lemma shr_m_record_of_loc (m : Z) (l : location) :
  shr_m (shr_record_of_loc m l) = m.
Proof. destruct l as [|[]]; reflexivity. Qed.

Lemma shr_fexp_nonneg (m e : Z) (l : location) :
  (0 <= m)%Z -> (0 <= shr_m (fst (shr_fexp prec emax m e l)))%Z.
Proof.
  intros Hm. unfold shr_fexp, shr.
  destruct (fexp prec emax (Zdigits2 m + e) - e)%Z; simpl;
    rewrite ?shr_m_record_of_loc; try exact Hm.
  apply iter_shr_1_nonneg. now rewrite shr_m_record_of_loc.
Qed.

Lemma round_nearest_even_nonneg (m : Z) (l : location) :
  (0 <= m)%Z -> (0 <= round_nearest_even m l)%Z.
Proof.
  intros Hm. destruct l as [|[]]; simpl; try destruct (Z.even m); lia.
Qed.

Lemma binary_round_aux_not_nan (sx : bool) (m e : Z) (l : location) :
  (0 <= m)%Z -> binary_round_aux prec emax sx m e l <> S754_nan.
Proof.
  intros Hm. unfold binary_round_aux.
  pose proof (shr_fexp_nonneg m e l Hm) as H1.
  destruct (shr_fexp prec emax m e l) as [mrs1 e1]; simpl in H1.
  pose proof (shr_fexp_nonneg _ e1 loc_Exact
                (round_nearest_even_nonneg _ (loc_of_shr_record mrs1) H1)) as H2.
  destruct (shr_fexp prec emax _ e1 loc_Exact) as [mrs2 e2]; simpl in H2.
  destruct (shr_m mrs2); try lia; try discriminate.
  destruct (e2 <=? emax - prec)%Z; discriminate.
Qed.

Lemma binary_normalize_not_nan (m e : Z) (szero : bool) :
  binary_normalize prec emax m e szero <> S754_nan.
Proof.
  destruct m as [|p|p]; simpl; try discriminate; unfold binary_round;
    destruct (shl_align _ _ _) as [mz ez]; now apply binary_round_aux_not_nan.
Qed.

Lemma SFadd_finite_not_nan (a : spec_float) (s0 : bool) (m : positive) (e : Z) :
  a <> S754_nan -> SFadd prec emax a (S754_finite s0 m e) <> S754_nan.
Proof.
  destruct a; simpl; try congruence.
  intros _. apply binary_normalize_not_nan.
Qed.

End SpecRounding.

Section FloatFacts.

Lemma ltb_negb_leb (a b : float) :
  is_nan a = false -> is_nan b = false -> (a <? b)%float = negb (b <=? a)%float.
Proof.
  intros Ha%is_nan_Prim2SF Hb%is_nan_Prim2SF.
  rewrite FloatAxioms.ltb_spec, FloatAxioms.leb_spec. unfold SFltb, SFleb.
  destruct (SFcompare_defined _ _ Ha Hb) as [c Hc].
  rewrite Hc, (SFcompare_antisym _ _ _ Hc). now destruct c.
Qed.

Lemma add_finite_not_nan (a c : float) (s0 : bool) (m : positive) (e : Z) :
  Prim2SF c = S754_finite s0 m e -> is_nan a = false -> is_nan (a + c) = false.
Proof.
  intros Hc Ha%is_nan_Prim2SF. apply Prim2SF_is_nan.
  rewrite FloatAxioms.add_spec, Hc. now apply SFadd_finite_not_nan.
Qed.

Lemma is_finite_not_nan (f : float) : is_finite f = true -> is_nan f = false.
Proof.
  unfold is_finite. destruct (is_nan f); [discriminate|reflexivity].
Qed.

Lemma is_zero_spec (f : float) :
  is_zero f = true -> exists s0, Prim2SF f = S754_zero s0.
Proof.
  unfold is_zero. rewrite FloatAxioms.eqb_spec.
  change (Prim2SF zero) with (S754_zero false).
  destruct (Prim2SF f) as [s0|s0| |s0 m e]; simpl; try discriminate; eauto;
    destruct s0; discriminate.
Qed.

Lemma is_zero_is_finite (f : float) : is_zero f = true -> is_finite f = true.
Proof.
  intros [s0 Hs]%is_zero_spec. unfold is_finite, is_infinity.
  rewrite (Prim2SF_is_nan f) by (rewrite Hs; discriminate).
  rewrite FloatAxioms.eqb_spec, FloatAxioms.abs_spec, Hs. reflexivity.
Qed.

(** A number at least as large as a positive one is not a zero. *)
Lemma leb_pos_not_zero (c f : float) :
  (zero <? c)%float = true -> (c <=? f)%float = true -> is_zero f = false.
Proof.
  unfold is_zero.
  rewrite FloatAxioms.ltb_spec, FloatAxioms.leb_spec, FloatAxioms.eqb_spec.
  change (Prim2SF zero) with (S754_zero false).
  destruct (Prim2SF c) as [sc|sc| |sc mc ec], (Prim2SF f) as [sf|sf| |sf mf ef];
    simpl; try discriminate; try reflexivity;
    try (destruct sc; discriminate); try (destruct sf; reflexivity);
    try (destruct sc, sf; discriminate || reflexivity).
Qed.

End FloatFacts.

(* ===================================================================== *)
(** * Part III. CoordinateTransformer *)
(* ===================================================================== *)

Section MinMax.

Lemma Math_min_le_l (a b : float) :
  is_nan a = false -> is_nan b = false ->
  Js.le (Js.Math_min a b) a = true /\ is_nan (Js.Math_min a b) = false.
Proof.
  intros Ha Hb. unfold Js.Math_min, Js.le. rewrite Ha, Hb. simpl.
  destruct (a <? b)%float eqn:Hab; [split; [now apply leb_refl|exact Ha]|].
  destruct (b <? a)%float eqn:Hba; [split; [now apply ltb_leb|exact Hb]|].
  destruct (get_sign a); [split; [now apply leb_refl|exact Ha]|].
  split; [now apply ltb_false_leb|exact Hb].
Qed.

Lemma Math_max_ge_l (a b : float) :
  is_nan a = false -> is_nan b = false -> Js.le a (Js.Math_max a b) = true.
Proof.
  intros Ha Hb. unfold Js.Math_max, Js.le. rewrite Ha, Hb. simpl.
  destruct (a <? b)%float eqn:Hab; [now apply ltb_leb|].
  destruct (b <? a)%float eqn:Hba; [now apply leb_refl|].
  destruct (get_sign a); [now apply ltb_false_leb|now apply leb_refl].
Qed.

Lemma Math_max_le (a b hi : float) :
  is_nan a = false -> is_nan b = false ->
  Js.le a hi = true -> Js.le b hi = true -> Js.le (Js.Math_max a b) hi = true.
Proof.
  intros Ha Hb Hah Hbh. unfold Js.Math_max. rewrite Ha, Hb. simpl.
  destruct (a <? b)%float; [exact Hbh|].
  destruct (b <? a)%float; [exact Hah|].
  destruct (get_sign a); assumption.
Qed.

(** [Math.max(lo, Math.min(hi, v))] lies between [lo] and [hi] as soon as
    [v] is a number. *)
Lemma clamp_between (lo hi v : float) :
  Js.le lo hi = true -> is_nan v = false ->
  Js.le lo (Js.Math_max lo (Js.Math_min hi v)) = true
  /\ Js.le (Js.Math_max lo (Js.Math_min hi v)) hi = true.
Proof.
  intros Hlh Hv.
  pose proof (leb_not_nan_l _ _ Hlh) as Hlo.
  pose proof (leb_not_nan_r _ _ Hlh) as Hhi.
  destruct (Math_min_le_l hi v Hhi Hv) as [Hle Hnan].
  split; [now apply Math_max_ge_l|now apply Math_max_le].
Qed.

(** On NaN the clamp is NaN: the bounds do not apply. *)
Lemma clamp_nan (lo hi : float) :
  Js.Math_max lo (Js.Math_min hi nan) = nan.
Proof.
  unfold Js.Math_min. replace (is_nan hi || is_nan nan) with true
    by (now rewrite orb_true_r).
  unfold Js.Math_max. now rewrite orb_true_r.
Qed.

End MinMax.

Section TransformerFacts.

Variable parse_text : string -> float.
Variable proj4 : projector.

Local Notation toGeo := (tmToWgs84 parse_text proj4).
Local Notation parse := (Js.parseFloat parse_text).

Lemma parse_number_finite (f : float) :
  Js.isFinite f = true -> Js.isFinite (parse (Js.Number f)) = true.
Proof.
  intros Hf. simpl. now destruct (is_zero f).
Qed.

Lemma parse_number_not_finite (f : float) :
  Js.isFinite f = false -> parse (Js.Number f) = f.
Proof.
  intros Hf. simpl. destruct (is_zero f) eqn:Hz; [|reflexivity].
  apply is_zero_is_finite in Hz. unfold Js.isFinite in Hf. congruence.
Qed.

Lemma parse_number_ge (c f : float) :
  (zero <? c)%float = true -> Js.le c f = true -> parse (Js.Number f) = f.
Proof.
  intros Hc Hf. simpl. now rewrite (leb_pos_not_zero c f Hc Hf).
Qed.

Lemma not_usable_finite (tmX tmY : float) :
  Js.isFinite tmX = true -> Js.isFinite tmY = true -> not_usable tmX tmY = false.
Proof.
  intros HX HY. unfold not_usable, Js.isNaN. rewrite HX, HY. simpl.
  now rewrite !is_finite_not_nan.
Qed.

Lemma not_usable_not_finite (tmX tmY : float) :
  Js.isFinite tmX = false \/ Js.isFinite tmY = false -> not_usable tmX tmY = true.
Proof.
  unfold not_usable. intros [-> | ->]; simpl; [reflexivity|].
  now rewrite orb_true_r.
Qed.

(** The source's range test is the negation of the specification's
    bounds on numbers. *)
Lemma outside_tm_range_spec (tmX tmY : float) :
  is_nan tmX = false -> is_nan tmY = false ->
  outside_tm_range tmX tmY = negb (in_planar_bounds tmX tmY).
Proof.
  intros HX HY. unfold outside_tm_range, in_planar_bounds, Js.lt, Js.gt, Js.le.
  rewrite (ltb_negb_leb tmX 50000), (ltb_negb_leb 350000 tmX),
    (ltb_negb_leb tmY 0), (ltb_negb_leb 700000 tmY) by (assumption || reflexivity).
  now rewrite !negb_andb.
Qed.

Lemma seoul_in_box : in_korea_box seoul = true.
Proof. reflexivity. Qed.

(** The value of the function on each of its four paths. *)
Lemma toGeo_unusable (x y : Js.value) :
  not_usable (parse x) (parse y) = true -> toGeo x y = seoul.
Proof. unfold tmToWgs84. now intros ->. Qed.

Lemma toGeo_passthrough (x y : Js.value) :
  not_usable (parse x) (parse y) = false ->
  already_wgs84 (parse x) (parse y) = true ->
  toGeo x y = {| lat := parse y; lng := parse x |}.
Proof. unfold tmToWgs84. now intros -> ->. Qed.

Lemma toGeo_out_of_range (x y : Js.value) :
  already_wgs84 (parse x) (parse y) = false ->
  outside_tm_range (parse x) (parse y) = true ->
  toGeo x y = seoul.
Proof.
  unfold tmToWgs84. intros -> ->. now destruct (not_usable _ _).
Qed.

Lemma toGeo_planar (x y : Js.value) :
  not_usable (parse x) (parse y) = false ->
  already_wgs84 (parse x) (parse y) = false ->
  outside_tm_range (parse x) (parse y) = false ->
  toGeo x y =
    match proj4 (parse x) (parse y) with
    | Some (lng0, lat0) =>
        {| lat := clamp_lat (lat0 + lat_bias); lng := clamp_lng (lng0 + lng_bias) |}
    | None => seoul
    end.
Proof. unfold tmToWgs84. now intros -> -> ->. Qed.

End TransformerFacts.

Section TransformerClaims.

Variable parse_text : string -> float.
Variable proj4 : projector.

Local Notation toGeo := (tmToWgs84 parse_text proj4).
Local Notation parse := (Js.parseFloat parse_text).

(** C1 (as amended).  For finite numbers x and y, when the projection does
    not hand back NaN: outside the pass-through range the result lies in
    the Korea box, lat in [33, 43] and lng in [124, 132]; inside the
    pass-through range the result is the input itself, not clamped, so
    only lat in [30, 45] and lng in [100, 140] is known. *)
Theorem tmToWgs84_range (x y : float) :
  Js.isFinite x = true -> Js.isFinite y = true ->
  (forall lng0 lat0,
      proj4 (parse (Js.Number x)) (parse (Js.Number y)) = Some (lng0, lat0) ->
      is_nan lng0 = false /\ is_nan lat0 = false) ->
  (already_wgs84 (parse (Js.Number x)) (parse (Js.Number y)) = false ->
     in_korea_box (toGeo (Js.Number x) (Js.Number y)) = true)
  /\ (already_wgs84 (parse (Js.Number x)) (parse (Js.Number y)) = true ->
        toGeo (Js.Number x) (Js.Number y) = {| lat := y; lng := x |}
        /\ Js.le 30 y = true /\ Js.le y 45 = true
        /\ Js.le 100 x = true /\ Js.le x 140 = true).
Proof.
  intros Hx Hy Hproj.
  pose proof (parse_number_finite parse_text x Hx) as HX.
  pose proof (parse_number_finite parse_text y Hy) as HY.
  pose proof (not_usable_finite _ _ HX HY) as Hus.
  split.
  - intros Hgeo.
    destruct (outside_tm_range (parse (Js.Number x)) (parse (Js.Number y))) eqn:Hout.
    + rewrite (toGeo_out_of_range parse_text proj4 _ _ Hgeo Hout). reflexivity.
    + rewrite (toGeo_planar parse_text proj4 _ _ Hus Hgeo Hout).
      destruct (proj4 _ _) as [[lng0 lat0]|] eqn:Hp; [|reflexivity].
      destruct (Hproj _ _ eq_refl) as [Hlng Hlat].
      unfold in_korea_box, clamp_lat, clamp_lng; simpl.
      destruct (clamp_between 33 43 (lat0 + lat_bias)) as [-> ->];
        [reflexivity|eapply add_finite_not_nan; [now vm_compute|exact Hlat]|].
      destruct (clamp_between 124 132 (lng0 + lng_bias)) as [-> ->];
        [reflexivity|eapply add_finite_not_nan; [now vm_compute|exact Hlng]|].
      reflexivity.
  - intros Hgeo.
    rewrite (toGeo_passthrough parse_text proj4 _ _ Hus Hgeo).
    unfold already_wgs84, Js.ge in Hgeo.
    apply andb_prop in Hgeo as [Hgeo H4]. apply andb_prop in Hgeo as [Hgeo H3].
    apply andb_prop in Hgeo as [H1 H2].
    assert (parse (Js.Number x) = x) as Ex.
    { simpl in H1 |- *. destruct (is_zero x); [discriminate H1|reflexivity]. }
    assert (parse (Js.Number y) = y) as Ey.
    { simpl in H3 |- *. destruct (is_zero y); [discriminate H3|reflexivity]. }
    rewrite Ex in *. rewrite Ey in *. auto.
Qed.

(** C5.  A finite input with x in [100, 140] and y in [30, 45] comes back
    as [{lat: y, lng: x}], with no bias and no clamping: for arguments of
    any kind this is the parsed pair, for numbers it is the pair itself; in
    particular (127.0, 37.5) gives [{lat: 37.5, lng: 127.0}]. *)
Theorem tmToWgs84_passthrough :
  (forall x y : Js.value,
      Js.isFinite (parse x) = true -> Js.isFinite (parse y) = true ->
      Js.le 100 (parse x) = true -> Js.le (parse x) 140 = true ->
      Js.le 30 (parse y) = true -> Js.le (parse y) 45 = true ->
      toGeo x y = {| lat := parse y; lng := parse x |})
  /\ (forall x y : float,
        Js.isFinite x = true -> Js.isFinite y = true ->
        Js.le 100 x = true -> Js.le x 140 = true ->
        Js.le 30 y = true -> Js.le y 45 = true ->
        toGeo (Js.Number x) (Js.Number y) = {| lat := y; lng := x |})
  /\ toGeo (Js.Number 127.0) (Js.Number 37.5) = {| lat := 37.5; lng := 127.0 |}.
Proof.
  assert (forall x y : Js.value,
      Js.isFinite (parse x) = true -> Js.isFinite (parse y) = true ->
      Js.le 100 (parse x) = true -> Js.le (parse x) 140 = true ->
      Js.le 30 (parse y) = true -> Js.le (parse y) 45 = true ->
      toGeo x y = {| lat := parse y; lng := parse x |}) as Hgen.
  { intros x y HX HY H1 H2 H3 H4. apply toGeo_passthrough.
    - now apply not_usable_finite.
    - unfold already_wgs84, Js.ge, Js.le in *. now rewrite H1, H2, H3, H4. }
  split; [exact Hgen|split; [|reflexivity]].
  intros x y Hx Hy H1 H2 H3 H4.
  assert (parse (Js.Number x) = x) as Ex
    by now apply (parse_number_ge parse_text 100).
  assert (parse (Js.Number y) = y) as Ey
    by now apply (parse_number_ge parse_text 30).
  rewrite <- Ex at 2. rewrite <- Ey at 2.
  apply Hgen; rewrite ?Ex, ?Ey; assumption.
Qed.

(** C6.  The function is total, and it answers the Seoul default whenever
    a parsed argument is not finite, whenever the parsed pair is outside
    the planar bounds without being in the pass-through range, and
    whenever the projection is reached and throws.  Missing arguments
    parse to NaN; (NaN, 100) and (1, 1) give the default. *)
Theorem tmToWgs84_default :
  (forall x y : Js.value,
      Js.isFinite (parse x) = false \/ Js.isFinite (parse y) = false
      \/ already_wgs84 (parse x) (parse y) = false
         /\ (in_planar_bounds (parse x) (parse y) = false
             \/ proj4 (parse x) (parse y) = None) ->
      toGeo x y = seoul)
  /\ (forall v : Js.value, toGeo Js.Nullish v = seoul /\ toGeo v Js.Nullish = seoul)
  /\ toGeo (Js.Number nan) (Js.Number 100) = seoul
  /\ toGeo (Js.Number 1) (Js.Number 1) = seoul.
Proof.
  split; [|split; [|split; reflexivity]].
  - intros x y H.
    destruct (not_usable (parse x) (parse y)) eqn:Hus;
      [now apply toGeo_unusable|].
    destruct H as [H|[H|[Hgeo H]]];
      try (rewrite not_usable_not_finite in Hus by auto; discriminate).
    assert (is_nan (parse x) = false /\ is_nan (parse y) = false) as [HX HY].
    { unfold not_usable, Js.isNaN in Hus.
      apply orb_false_elim in Hus as [Hus HY].
      apply orb_false_elim in Hus as [_ HX]. auto. }
    destruct (outside_tm_range (parse x) (parse y)) eqn:Hout;
      [now apply toGeo_out_of_range|].
    rewrite outside_tm_range_spec in Hout by assumption.
    destruct H as [H|H]; [rewrite H in Hout; discriminate|].
    rewrite toGeo_planar, ?H; try reflexivity; try assumption.
    now rewrite outside_tm_range_spec by assumption.
  - intros v. split; apply toGeo_unusable; [reflexivity|].
    apply not_usable_not_finite. right. reflexivity.
Qed.

(** C7.  On the planar path (numbers, not in the pass-through range,
    inside the planar bounds) with the projection returning (lng, lat),
    the result is the clamp of (lat + 0.002747, lng + 0.00079). *)
Theorem tmToWgs84_planar (x y : Js.value) (lng0 lat0 : float) :
  Js.isFinite (parse x) = true -> Js.isFinite (parse y) = true ->
  already_wgs84 (parse x) (parse y) = false ->
  in_planar_bounds (parse x) (parse y) = true ->
  proj4 (parse x) (parse y) = Some (lng0, lat0) ->
  toGeo x y =
    {| lat := Js.Math_max 33 (Js.Math_min 43 (lat0 + 0.002747));
       lng := Js.Math_max 124 (Js.Math_min 132 (lng0 + 0.00079)) |}.
Proof.
  intros HX HY Hgeo Hin Hp.
  rewrite toGeo_planar, Hp; try reflexivity; try assumption.
  - now apply not_usable_finite.
  - rewrite outside_tm_range_spec, Hin by now apply is_finite_not_nan.
    reflexivity.
Qed.

End TransformerClaims.

(** ** Concrete runs *)

Lemma tmToWgs84_range_witness :
  Js.isFinite 198000 = true /\ Js.isFinite 450000 = true
  /\ in_korea_box
       (tmToWgs84 parse_unreadable proj4_linear (Js.Number 198000) (Js.Number 450000))
     = true.
Proof.
  split; [reflexivity|split; [reflexivity|]].
  refine (proj1 (tmToWgs84_range parse_unreadable proj4_linear 198000 450000
                   eq_refl eq_refl _) eq_refl).
  intros lng0 lat0 [= <- <-]. split; reflexivity.
Defined.

(** C1 fails as stated: (110, 31) is a pair of finite numbers, it is in
    the pass-through range, and it is returned as it is, outside the box. *)
Lemma tmToWgs84_range_counterexample :
  Js.isFinite 110 = true /\ Js.isFinite 31 = true
  /\ tmToWgs84 parse_unreadable proj4_linear (Js.Number 110) (Js.Number 31)
     = {| lat := 31; lng := 110 |}
  /\ in_korea_box
       (tmToWgs84 parse_unreadable proj4_linear (Js.Number 110) (Js.Number 31))
     = false.
Proof. repeat split. Qed.

(** Why the amended C1 asks for a projection that returns numbers:
    [Math.max] and [Math.min] pass NaN through, so the clamp does not bring
    a NaN back into the box. *)
Example tmToWgs84_nan_projection :
  in_korea_box
    (tmToWgs84 parse_unreadable proj4_nan (Js.Number 198000) (Js.Number 450000))
  = false.
Proof. reflexivity. Qed.

Lemma tmToWgs84_passthrough_witness :
  tmToWgs84 parse_unreadable proj4_linear (Js.Number 129.075) (Js.Number 35.1796)
  = {| lat := 35.1796; lng := 129.075 |}.
Proof.
  apply (proj1 (proj2 (tmToWgs84_passthrough parse_unreadable proj4_linear)));
    reflexivity.
Defined.

Lemma tmToWgs84_default_witness :
  tmToWgs84 parse_unreadable proj4_linear (Js.Number 49999) (Js.Number 450000) = seoul
  /\ tmToWgs84 parse_unreadable proj4_linear (Js.String "abc") (Js.Number 450000) = seoul
  /\ tmToWgs84 parse_unreadable proj4_throwing (Js.Number 198000) (Js.Number 450000) = seoul.
Proof.
  split; [|split].
  - apply (proj1 (tmToWgs84_default parse_unreadable proj4_linear)).
    right; right. split; [reflexivity|left; reflexivity].
  - apply (proj1 (tmToWgs84_default parse_unreadable proj4_linear)).
    left. reflexivity.
  - apply (proj1 (tmToWgs84_default parse_unreadable proj4_throwing)).
    right; right. split; [reflexivity|right; reflexivity].
Defined.

Lemma tmToWgs84_planar_witness :
  tmToWgs84 parse_unreadable proj4_linear (Js.Number 198000) (Js.Number 450000)
  = {| lat := Js.Math_max 33
               (Js.Math_min 43 ((38 + (450000 - 500000) / 111000) + 0.002747));
       lng := Js.Math_max 124
               (Js.Math_min 132 ((127 + (198000 - 200000) / 88000) + 0.00079)) |}.
Proof.
  apply (tmToWgs84_planar parse_unreadable proj4_linear
           (Js.Number 198000) (Js.Number 450000)); reflexivity.
Defined.

(* ===================================================================== *)
(** * Part IV. ReviewVisibilityGate *)
(* ===================================================================== *)

Section GateFacts.

Variable req_user : option Viewer.t.

Lemma formattedReviews_lookup (isUnlocked : bool) (reviews : list Review.t) (i : nat) :
  formattedReviews req_user isUnlocked reviews !! i
  = formatReview req_user isUnlocked i <$> reviews !! i.
Proof. unfold formattedReviews. apply list_lookup_imap. Qed.

Lemma formatReview_unlocked (i : nat) (r : Review.t) :
  formatReview req_user true i r = baseReview req_user r.
Proof. reflexivity. Qed.

Lemma formatReview_first (isUnlocked : bool) (r : Review.t) :
  formatReview req_user isUnlocked 0 r = baseReview req_user r.
Proof. unfold formatReview. now rewrite andb_false_r. Qed.

Lemma formatReview_locked_rest (i : nat) (r : Review.t) :
  (1 <= i)%nat ->
  formatReview req_user false i r = blind (baseReview req_user r).
Proof.
  intros Hi. unfold formatReview.
  now replace (0 <? i)%nat with true by (symmetry; apply Nat.ltb_lt; lia).
Qed.

(** The callback gives either the base projection or its blinding, and
    which one is recorded in [isBlinded]. *)
Lemma formatReview_cases (isUnlocked : bool) (i : nat) (r : Review.t) :
  (formatReview req_user isUnlocked i r = baseReview req_user r
   /\ Formatted.isBlinded (formatReview req_user isUnlocked i r) = false)
  \/ (formatReview req_user isUnlocked i r = blind (baseReview req_user r)
      /\ Formatted.isBlinded (formatReview req_user isUnlocked i r) = true).
Proof.
  unfold formatReview. destruct (negb isUnlocked && (0 <? i)%nat); auto.
Qed.

Lemma baseReview_unredacted (r : Review.t) : unredacted r (baseReview req_user r).
Proof. repeat split. Qed.

Lemma blind_blinded (r : Review.t) : blinded r (blind (baseReview req_user r)).
Proof. repeat split. Qed.

(** A property of the callback that holds at every index holds along the
    whole output list. *)
Lemma formattedReviews_Forall2 (isUnlocked : bool)
    (P : Review.t -> Formatted.t -> Prop) (reviews : list Review.t) :
  (forall i r, P r (formatReview req_user isUnlocked i r)) ->
  Forall2 P reviews (formattedReviews req_user isUnlocked reviews).
Proof.
  intros HP. apply Forall2_same_length_lookup. split.
  - unfold formattedReviews. now rewrite length_imap.
  - intros i r out Hr. rewrite formattedReviews_lookup, Hr.
    intros [= <-]. apply HP.
Qed.

End GateFacts.

Section GateClaims.

(** C2.  Locked, on a non-empty list: position 0 is unredacted and every
    position from 1 on is the blinded projection, with placeholder
    content, empty images, tags and dollImages, [isBlinded = true], and
    the rating and author display name of the row. *)
Theorem gate_locked (req_user : option Viewer.t) (reviews : list Review.t) :
  reviews <> [] ->
  (exists r0 out0,
      reviews !! 0%nat = Some r0
      /\ formattedReviews req_user false reviews !! 0%nat = Some out0
      /\ unredacted r0 out0)
  /\ (forall i r,
        (1 <= i)%nat -> reviews !! i = Some r ->
        exists out,
          formattedReviews req_user false reviews !! i = Some out
          /\ blinded r out).
Proof.
  intros Hne. split.
  - destruct reviews as [|r0 rest]; [congruence|].
    exists r0, (baseReview req_user r0). repeat split.
  - intros i r Hi Hr. exists (blind (baseReview req_user r)).
    rewrite formattedReviews_lookup, Hr. simpl.
    rewrite formatReview_locked_rest by exact Hi.
    split; [reflexivity|apply blind_blinded].
Qed.

(** C3.  Unlocked: every review comes back with its full content and with
    [isBlinded = false]. *)
Theorem gate_unlocked (req_user : option Viewer.t) (reviews : list Review.t) :
  Forall2 unredacted reviews (formattedReviews req_user true reviews).
Proof.
  apply formattedReviews_Forall2. intros i r.
  rewrite formatReview_unlocked. apply baseReview_unredacted.
Qed.

(** C4 (as amended).  At every position and in either unlock state,
    [isOwner] is true exactly when the viewer is authenticated and is the
    author, and it is a boolean for every authenticated viewer; for a
    request without a user it is that missing user, not [false].  The
    flag is the same whether or not the store is unlocked. *)
Theorem gate_isOwner (req_user : option Viewer.t) (isUnlocked : bool)
    (reviews : list Review.t) :
  Forall2 (owner_flag req_user) reviews (formattedReviews req_user isUnlocked reviews)
  /\ Formatted.isOwner <$> formattedReviews req_user isUnlocked reviews
     = Formatted.isOwner <$> formattedReviews req_user (negb isUnlocked) reviews.
Proof.
  split.
  - apply formattedReviews_Forall2. intros i r.
    assert (Formatted.isOwner (formatReview req_user isUnlocked i r)
            = isOwner_of req_user r) as E.
    { now destruct (formatReview_cases req_user isUnlocked i r) as [[-> _]|[-> _]]. }
    unfold owner_flag. rewrite E. unfold isOwner_of, is_author.
    destruct req_user as [u|].
    + split; [|reflexivity]. split; [now intros [= ->]|now intros ->].
    + split; [|reflexivity]. split; discriminate.
  - unfold formattedReviews. rewrite !fmap_imap. apply imap_ext.
    intros i r _. simpl.
    destruct (formatReview_cases req_user isUnlocked i r) as [[-> _]|[-> _]],
      (formatReview_cases req_user (negb isUnlocked) i r) as [[-> _]|[-> _]];
      reflexivity.
Qed.

(** C9.  The output has the length of the input and the same ids in the
    same order; the empty list gives the empty list. *)
Theorem gate_shape (req_user : option Viewer.t) (isUnlocked : bool)
    (reviews : list Review.t) :
  length (formattedReviews req_user isUnlocked reviews) = length reviews
  /\ Formatted.id <$> formattedReviews req_user isUnlocked reviews
     = Review.id <$> reviews
  /\ formattedReviews req_user isUnlocked [] = [].
Proof.
  split; [|split; [|reflexivity]].
  - unfold formattedReviews. apply length_imap.
  - unfold formattedReviews. rewrite fmap_imap.
    rewrite <- (imap_const (Review.id : Review.t -> Z)). apply imap_ext.
    intros i r _. simpl.
    now destruct (formatReview_cases req_user isUnlocked i r) as [[-> _]|[-> _]].
Qed.

(** C10.  A blinded output review has the id, dollCount, spentAmount,
    createdAt and updatedAt of its row, and the author display name and
    avatar computed from the row; together with rating and isOwner these
    are the fields of the unblinded projection, of which only content,
    images, tags and dollImages are replaced. *)
Theorem gate_blinded_frame (req_user : option Viewer.t) (isUnlocked : bool)
    (reviews : list Review.t) (i : nat) (r : Review.t) (out : Formatted.t) :
  reviews !! i = Some r ->
  formattedReviews req_user isUnlocked reviews !! i = Some out ->
  Formatted.isBlinded out = true ->
  carried_over r out
  /\ Formatted.rating out = Formatted.rating (baseReview req_user r)
  /\ Formatted.isOwner out = Formatted.isOwner (baseReview req_user r)
  /\ Formatted.userName out = Formatted.userName (baseReview req_user r)
  /\ Formatted.userAvatar out = Formatted.userAvatar (baseReview req_user r)
  /\ Formatted.content out = blind_placeholder
  /\ Formatted.images out = [] /\ Formatted.tags out = []
  /\ Formatted.dollImages out = [].
Proof.
  intros Hr Hout Hb. rewrite formattedReviews_lookup, Hr in Hout.
  injection Hout as <-.
  destruct (formatReview_cases req_user isUnlocked i r) as [[_ Hf]|[-> _]];
    [congruence|].
  repeat split.
Qed.

End GateClaims.

(** ** Concrete runs *)

Lemma gate_locked_witness :
  formattedReviews (Some alice) false [R0; R1; R2]
  = [ baseReview (Some alice) R0;
      blind (baseReview (Some alice) R1);
      blind (baseReview (Some alice) R2) ]
  /\ exists out, formattedReviews (Some alice) false [R0; R1; R2] !! 1%nat = Some out
                 /\ blinded R1 out.
Proof.
  split; [reflexivity|].
  apply (proj2 (gate_locked (Some alice) [R0; R1; R2] ltac:(discriminate)) 1%nat R1);
    [lia|reflexivity].
Defined.

(** C4 fails as stated: for a request without a user the flag is not the
    boolean [false] that the specification's formula gives. *)
Lemma gate_isOwner_counterexample :
  is_author None R0 = false
  /\ Formatted.isOwner <$> formattedReviews None false [R0; R1]
     = [None; None].
Proof. split; reflexivity. Qed.

(** A blinded review written by the viewer keeps [isOwner = true] and its
    rating. *)
Example gate_blinded_owner :
  exists out,
    formattedReviews (Some alice) false [R0; R1; R2] !! 1%nat = Some out
    /\ Formatted.isBlinded out = true
    /\ Formatted.isOwner out = Some true
    /\ Formatted.rating out = 4%Z.
Proof. eexists. repeat split. Qed.

Lemma gate_blinded_frame_witness :
  exists out,
    formattedReviews None false [R0; R1; R2] !! 2%nat = Some out
    /\ carried_over R2 out.
Proof.
  eexists. split; [reflexivity|].
  apply (gate_blinded_frame None false [R0; R1; R2] 2 R2); reflexivity.
Defined.

(* ===================================================================== *)
(** * Part V. The unlock ledger *)
(* ===================================================================== *)

Section LedgerFacts.

Lemma same_key_spec (userId : string) (storeId : Z) (r : Unlock.t) :
  same_key userId storeId r = true
  <-> Unlock.userId r = userId /\ Unlock.storeId r = storeId.
Proof.
  unfold same_key. rewrite andb_true_iff, !bool_decide_eq_true. reflexivity.
Qed.

Lemma find_none_existsb {A} (f : A -> bool) (l : list A) :
  List.find f l = None -> existsb f l = false.
Proof.
  induction l as [|a l IH]; simpl; [reflexivity|].
  destruct (f a); [discriminate|exact IH].
Qed.

Lemma find_app_new {A} (f : A -> bool) (l : list A) (a : A) :
  List.find f l = None -> f a = true -> List.find f (l ++ [a]) = Some a.
Proof.
  induction l as [|b l IH]; simpl; intros Hl Ha.
  - now rewrite Ha.
  - destruct (f b); [discriminate|now apply IH].
Qed.

Lemma find_none_key (userId : string) (storeId : Z) (rows : list Unlock.t) :
  List.find (same_key userId storeId) rows = None ->
  (userId, storeId) ∉ (fun r => (Unlock.userId r, Unlock.storeId r)) <$> rows.
Proof.
  intros Hfind [r [Hk Hr]]%list_elem_of_fmap.
  apply list_elem_of_In in Hr.
  pose proof (find_none _ _ Hfind r Hr) as Hf.
  injection Hk as Hu Hs.
  assert (same_key userId storeId r = true) by now apply same_key_spec.
  congruence.
Qed.

(** [create] on a key that is already in the table throws and writes
    nothing: the unique constraint. *)
Lemma unlock_create_duplicate (now : Z) (userId : string) (storeId : Z)
    (db : Db) (existing : Unlock.t) :
  List.find (same_key userId storeId) (userUnlockedStoreReview db) = Some existing ->
  unlock_create now userId storeId db = (None, db).
Proof.
  intros Hfind. unfold unlock_create.
  apply find_some in Hfind as [Hin Hk].
  replace (existsb _ _) with true; [reflexivity|].
  symmetry. apply existsb_exists. eauto.
Qed.

Variable parseInt : string -> option Z.

(** The handler, path by path. *)
Lemma unlockHandler_run (now : Z) (userId storeId : string) (db : Db) :
  unlockHandler parseInt now userId storeId db =
    match parseInt storeId with
    | None => (Some res_error, db)
    | Some sid =>
        match gameBusiness db !! sid with
        | None => (Some res_not_found, db)
        | Some _ =>
            match List.find (same_key userId sid) (userUnlockedStoreReview db) with
            | Some existing => (Some (res_already (Unlock.unlockedAt existing)), db)
            | None =>
                (Some (res_unlocked now),
                 {| gameBusiness := gameBusiness db;
                    userUnlockedStoreReview :=
                      userUnlockedStoreReview db
                      ++ [ {| Unlock.userId := userId; Unlock.storeId := sid;
                              Unlock.unlockedAt := now |} ] |})
            end
        end
    end.
Proof.
  unfold unlockHandler, try_catch, parsed_id, gameBusiness_findUnique,
    unlock_findUnique, unlock_create, throw, mbind, prisma_bind, mret, prisma_ret.
  destruct (parseInt storeId) as [sid|]; [|reflexivity].
  destruct (gameBusiness db !! sid); [|reflexivity].
  destruct (List.find _ _) eqn:Hfind; [reflexivity|].
  now rewrite (find_none_existsb _ _ Hfind).
Qed.

(** The handler never touches the store table and never removes or
    rewrites a ledger row: the ledger only grows at its end. *)
Lemma unlockHandler_append_only (now : Z) (userId storeId : string) (db : Db) :
  gameBusiness (unlockHandler parseInt now userId storeId db).2 = gameBusiness db
  /\ exists new,
      userUnlockedStoreReview (unlockHandler parseInt now userId storeId db).2
      = userUnlockedStoreReview db ++ new.
Proof.
  rewrite unlockHandler_run.
  destruct (parseInt storeId) as [sid|]; [|split; [|exists []]; now rewrite ?app_nil_r].
  destruct (gameBusiness db !! sid); [|split; [|exists []]; now rewrite ?app_nil_r].
  destruct (List.find _ _); simpl; split; try reflexivity; eauto.
  exists []. now rewrite app_nil_r.
Qed.

(** The foreign key and the unique constraint are kept by the handler. *)
Lemma unlockHandler_consistent (now : Z) (userId storeId : string) (db : Db) :
  ledger_consistent db ->
  ledger_consistent (unlockHandler parseInt now userId storeId db).2.
Proof.
  intros [Hfk Huniq]. rewrite unlockHandler_run.
  destruct (parseInt storeId) as [sid|]; [|now split].
  destruct (gameBusiness db !! sid) as [name|] eqn:Hstore; [|now split].
  destruct (List.find _ _) eqn:Hfind; [now split|].
  split; simpl.
  - intros r [Hr| ->%list_elem_of_singleton]%elem_of_app; [now apply Hfk|].
    simpl. rewrite Hstore. eauto.
  - rewrite fmap_app. simpl. apply NoDup_app. split; [exact Huniq|]. split.
    + intros k Hk ->%list_elem_of_singleton.
      now apply (find_none_key _ _ _ Hfind).
    + apply NoDup_singleton.
Qed.

End LedgerFacts.

Section LedgerClaims.

Variable parseInt : string -> option Z.

(** C8.  When the ledger already holds a row for (userId, storeId), a
    further unlock request for that pair answers 200 with
    [success: true] and the stored [unlockedAt], and the database after
    the request is the database before it: no row is added and the
    existing row is untouched. *)
Theorem unlockHandler_idempotent (now : Z) (userId storeId : string) (sid : Z)
    (db : Db) (existing : Unlock.t) :
  ledger_consistent db ->
  parseInt storeId = Some sid ->
  List.find (same_key userId sid) (userUnlockedStoreReview db) = Some existing ->
  exists res,
    unlockHandler parseInt now userId storeId db = (Some res, db)
    /\ status res = 200%Z
    /\ success res = Some true
    /\ data res = Some (true, Unlock.unlockedAt existing).
Proof.
  intros [Hfk _] Hparse Hfind.
  exists (res_already (Unlock.unlockedAt existing)).
  rewrite unlockHandler_run, Hparse.
  pose proof Hfind as [Hin [_ Hs]%same_key_spec]%find_some.
  apply list_elem_of_In, Hfk in Hin as [name Hstore].
  rewrite Hs in Hstore. rewrite Hstore, Hfind. repeat split.
Qed.

End LedgerClaims.

Section LedgerTwice.

Variable parseInt : string -> option Z.

(** Two requests in a row, on any database: if the first one answers 200,
    the second one answers 200 with the same [unlockedAt] and writes
    nothing, whatever the clock shows by then. *)
Lemma unlockHandler_twice (now now' : Z) (userId storeId : string) (db : Db)
    (res : UnlockResponse) (db' : Db) :
  unlockHandler parseInt now userId storeId db = (Some res, db') ->
  status res = 200%Z ->
  exists res',
    unlockHandler parseInt now' userId storeId db' = (Some res', db')
    /\ status res' = 200%Z /\ success res' = Some true /\ data res' = data res.
Proof.
  rewrite !unlockHandler_run.
  destruct (parseInt storeId) as [sid|]; [|now intros [= <- <-]].
  destruct (gameBusiness db !! sid) as [name|] eqn:Hstore; [|now intros [= <- <-]].
  destruct (List.find _ (userUnlockedStoreReview db)) as [existing|] eqn:Hfind.
  - intros [= <- <-] _. rewrite Hstore, Hfind. eexists. repeat split.
  - intros [= <- <-] _. simpl. rewrite Hstore.
    rewrite (find_app_new _ _ _ Hfind) by (apply same_key_spec; now split).
    eexists. repeat split.
Qed.

(** After a 200 from the unlock handler the review list of that store is
    served unlocked to that user; without a user it is served locked. *)
Lemma resolveIsUnlocked_after_unlock (now : Z) (u : Viewer.t) (storeId : string)
    (db : Db) (res : UnlockResponse) (db' : Db) :
  unlockHandler parseInt now (Viewer.id u) storeId db = (Some res, db') ->
  status res = 200%Z ->
  resolveIsUnlocked parseInt (Some u) storeId db' = (Some true, db').
Proof.
  rewrite unlockHandler_run.
  unfold resolveIsUnlocked, parsed_id, unlock_findUnique, throw, mbind,
    prisma_bind, mret, prisma_ret.
  destruct (parseInt storeId) as [sid|]; [|now intros [= <- <-]].
  destruct (gameBusiness db !! sid) as [name|]; [|now intros [= <- <-]].
  destruct (List.find _ (userUnlockedStoreReview db)) as [existing|] eqn:Hfind.
  - intros [= <- <-] _. now rewrite Hfind.
  - intros [= <- <-] _. simpl.
    now rewrite (find_app_new _ _ _ Hfind) by (apply same_key_spec; now split).
Qed.

Lemma resolveIsUnlocked_anonymous (storeId : string) (db : Db) :
  resolveIsUnlocked parseInt None storeId db = (Some false, db).
Proof. reflexivity. Qed.

End LedgerTwice.

(** ** Concrete runs *)

Lemma sample_db_consistent : ledger_consistent sample_db.
Proof.
  split.
  - intros r ->%list_elem_of_singleton. simpl. now eexists.
  - simpl. apply NoDup_singleton.
Defined.

Lemma unlockHandler_idempotent_witness :
  exists res,
    unlockHandler sample_parseInt 1700009999 "clx-alice" "7" sample_db
    = (Some res, sample_db)
    /\ status res = 200%Z
    /\ success res = Some true
    /\ data res = Some (true, 1700000500%Z).
Proof.
  apply (unlockHandler_idempotent sample_parseInt 1700009999 "clx-alice" "7" 7
           sample_db
           {| Unlock.userId := "clx-alice"; Unlock.storeId := 7;
              Unlock.unlockedAt := 1700000500 |}).
  - exact sample_db_consistent.
  - reflexivity.
  - reflexivity.
Defined.

(** The store check comes first: for a store that is not in the table the
    answer is 404, and for a first unlock a row is appended. *)
Example unlockHandler_runs :
  (unlockHandler sample_parseInt 1700009999 "clx-alice" "8" sample_db).1
  = Some res_not_found
  /\ (unlockHandler sample_parseInt 1700009999 "clx-alice" "x" sample_db).1
     = Some res_error
  /\ userUnlockedStoreReview
       (unlockHandler sample_parseInt 1700009999 "clx-bob" "7" sample_db).2
     = [ {| Unlock.userId := "clx-alice"; Unlock.storeId := 7;
            Unlock.unlockedAt := 1700000500 |};
         {| Unlock.userId := "clx-bob"; Unlock.storeId := 7;
            Unlock.unlockedAt := 1700009999 |} ].
Proof. rewrite !unlockHandler_run. repeat split. Qed.

(* ===================================================================== *)
(** * Part VI. The handlers around the gate and the ledger *)
(* ===================================================================== *)

Section ListFacts.

Lemma find_app_other {A} (f : A -> bool) (l : list A) (a : A) :
  f a = false -> List.find f (l ++ [a]) = List.find f l.
Proof.
  intros Ha. induction l as [|b l IH]; simpl.
  - now rewrite Ha.
  - destruct (f b); [reflexivity|exact IH].
Qed.

Lemma take_one_drop {A} (l : list A) (i : nat) (x : A) :
  l !! i = Some x -> take 1 (drop i l) = [x].
Proof.
  intros Hx. pose proof (lookup_drop l i 0) as Hd.
  rewrite Nat.add_0_r, Hx in Hd.
  destruct (drop i l) as [|y k]; [discriminate|].
  injection Hd as ->. reflexivity.
Qed.

End ListFacts.

Section GateMoreFacts.

Variable req_user : option Viewer.t.

(** The locked output, written without indices: the head in full, every
    later review blinded. *)
Lemma formattedReviews_locked_cons (r0 : Review.t) (rs : list Review.t) :
  formattedReviews req_user false (r0 :: rs)
  = baseReview req_user r0 :: ((fun r => blind (baseReview req_user r)) <$> rs).
Proof.
  unfold formattedReviews. rewrite imap_cons. f_equal.
  rewrite <- imap_const. apply imap_ext. intros i r _. reflexivity.
Qed.

Lemma blind_hides (r r' : Review.t) :
  same_outside_content r r' ->
  blind (baseReview req_user r) = blind (baseReview req_user r').
Proof.
  intros (Hid & Hra & Hdc & Hsa & Hui & Hun & Hu & Hca & Hua).
  unfold blind, baseReview, display_name, display_avatar, isOwner_of. simpl.
  rewrite Hid, Hra, Hdc, Hsa, Hui, Hun, Hu, Hca, Hua. reflexivity.
Qed.

End GateMoreFacts.

Section GateMore.

Variable req_user : option Viewer.t.

(** What a locked page hides does not reach the output: two pages with the
    same first review whose later rows differ only in content, images, tags
    and dollImages give the same response. *)
Theorem gate_locked_hides_content (r0 : Review.t) (rs rs' : list Review.t) :
  Forall2 same_outside_content rs rs' ->
  formattedReviews req_user false (r0 :: rs)
  = formattedReviews req_user false (r0 :: rs').
Proof.
  intros H. rewrite !formattedReviews_locked_cons. f_equal.
  induction H as [|r r' l l' Hr _ IH]; [reflexivity|].
  rewrite !fmap_cons, IH. f_equal. now apply blind_hides.
Qed.

(** A locked page that is not empty has exactly one review that is not
    blinded. *)
Theorem gate_locked_one_readable (reviews : list Review.t) :
  reviews <> [] ->
  length (filter (fun out => Formatted.isBlinded out = false)
            (formattedReviews req_user false reviews)) = 1%nat.
Proof.
  destruct reviews as [|r0 rs]; [congruence|]. intros _.
  rewrite formattedReviews_locked_cons, filter_cons_True by reflexivity.
  simpl. f_equal.
  induction rs as [|r rs IH]; [reflexivity|].
  rewrite fmap_cons. now rewrite filter_cons_False by discriminate.
Qed.

End GateMore.

Section StatusFacts.

Variable parseInt : string -> option Z.

Lemma unlockStatusHandler_run (userId storeId : string) (db : Db) :
  unlockStatusHandler parseInt userId storeId db =
    match parseInt storeId with
    | None => (Some status_error, db)
    | Some sid =>
        (Some (status_ok (List.find (same_key userId sid) (userUnlockedStoreReview db))),
         db)
    end.
Proof.
  unfold unlockStatusHandler, try_catch, parsed_id, unlock_findUnique, throw,
    mbind, prisma_bind, mret, prisma_ret.
  now destruct (parseInt storeId).
Qed.

(** What the unlock handler answered is what the status route reports
    afterwards: unlocked, with the same [unlockedAt], and the status route
    writes nothing. *)
Theorem unlockStatus_after_unlock (now : Z) (userId storeId : string) (db : Db)
    (res : UnlockResponse) (db' : Db) :
  unlockHandler parseInt now userId storeId db = (Some res, db') ->
  status res = 200%Z ->
  exists unlockedAt,
    data res = Some (true, unlockedAt)
    /\ unlockStatusHandler parseInt userId storeId db'
       = (Some {| StatusResponse.status := 200;
                  StatusResponse.success := Some true;
                  StatusResponse.data := Some (true, Some unlockedAt) |}, db').
Proof.
  rewrite unlockHandler_run, unlockStatusHandler_run.
  destruct (parseInt storeId) as [sid|]; [|now intros [= <- <-]].
  destruct (gameBusiness db !! sid) as [name|]; [|now intros [= <- <-]].
  destruct (List.find _ (userUnlockedStoreReview db)) as [existing|] eqn:Hfind.
  - intros [= <- <-] _. exists (Unlock.unlockedAt existing). now rewrite Hfind.
  - intros [= <- <-] _. exists now. simpl.
    now rewrite (find_app_new _ _ _ Hfind) by (apply same_key_spec; now split).
Qed.

(** An unlock request changes the status of no other user and of no other
    store. *)
Theorem unlockStatus_frame (now : Z) (userId storeId userId' storeId' : string)
    (db : Db) :
  userId' <> userId \/ parseInt storeId' <> parseInt storeId ->
  (unlockStatusHandler parseInt userId' storeId'
     (unlockHandler parseInt now userId storeId db).2).1
  = (unlockStatusHandler parseInt userId' storeId' db).1.
Proof.
  intros Hne. rewrite unlockHandler_run, !unlockStatusHandler_run.
  destruct (parseInt storeId') as [sid'|]; [|reflexivity].
  destruct (parseInt storeId) as [sid|]; [|reflexivity].
  destruct (gameBusiness db !! sid); [|reflexivity].
  destruct (List.find (same_key userId sid) _); [reflexivity|].
  simpl. rewrite find_app_other; [reflexivity|].
  apply not_true_is_false. intros [Hu Hs]%same_key_spec. simpl in Hu, Hs.
  destruct Hne as [Hne|Hne]; [now apply Hne|]. apply Hne. now rewrite Hs.
Qed.

End StatusFacts.

Section ReviewListFacts.

Variable parseInt : string -> option Z.
Variable store_reviews : Z -> OrderBy -> list Review.t.

Local Notation getReviews := (getStoreReviews parseInt store_reviews).

Lemma getStoreReviews_run (req_user : option Viewer.t) (storeId sortBy : string)
    (limit offset : nat) (db : Db) :
  getReviews req_user storeId sortBy limit offset db =
    match parseInt storeId with
    | None => (Some ListError, db)
    | Some sid =>
        let rows := store_reviews sid (orderBy_of sortBy) in
        (Some (ListOk
           {| ReviewList.data :=
                formattedReviews req_user (resolved req_user sid db)
                  (take limit (drop offset rows));
              ReviewList.isUnlocked := resolved req_user sid db;
              ReviewList.pagination :=
                {| Pagination.total := length rows;
                   Pagination.limit := limit;
                   Pagination.offset := offset;
                   Pagination.hasMore := (offset + limit <? length rows)%nat |} |}),
         db)
    end.
Proof.
  unfold getStoreReviews, resolveIsUnlocked, try_catch, parsed_id,
    unlock_findUnique, throw, mbind, prisma_bind, mret, prisma_ret, resolved.
  destruct req_user as [u|]; now destruct (parseInt storeId).
Qed.

End ReviewListFacts.

Section ReviewListClaims.

Variable parseInt : string -> option Z.
Variable store_reviews : Z -> OrderBy -> list Review.t.

Local Notation getReviews := (getStoreReviews parseInt store_reviews).

(** The blinding index is the index in the page, not in the store's list:
    a page of one review is never blinded.  Whoever asks, unlocked or not,
    logged in or not, the review at any position [i] of the store's list
    comes back in full when asked for with [limit = 1] and [offset = i]. *)
Theorem getStoreReviews_page_of_one (req_user : option Viewer.t)
    (storeId sortBy : string) (sid : Z) (i : nat) (r : Review.t) (db : Db) :
  parseInt storeId = Some sid ->
  store_reviews sid (orderBy_of sortBy) !! i = Some r ->
  exists body out,
    getReviews req_user storeId sortBy 1 i db = (Some (ListOk body), db)
    /\ ReviewList.data body = [out]
    /\ unredacted r out.
Proof.
  intros Hparse Hr. rewrite getStoreReviews_run, Hparse. simpl.
  eexists. exists (baseReview req_user r). split; [reflexivity|]. simpl.
  rewrite (take_one_drop _ _ _ Hr). split; [|apply baseReview_unredacted].
  unfold formattedReviews. simpl. now rewrite formatReview_first.
Qed.

(** [hasMore] is true exactly when the next page, at [offset + limit], has
    a review on it; and a page holds [min limit (total - offset)] reviews. *)
Theorem getStoreReviews_hasMore (req_user : option Viewer.t)
    (storeId sortBy : string) (limit offset : nat) (db db1 db2 : Db)
    (body next : ReviewList.t) :
  (0 < limit)%nat ->
  getReviews req_user storeId sortBy limit offset db = (Some (ListOk body), db1) ->
  getReviews req_user storeId sortBy limit (offset + limit) db
    = (Some (ListOk next), db2) ->
  (Pagination.hasMore (ReviewList.pagination body) = true
     <-> ReviewList.data next <> [])
  /\ length (ReviewList.data body)
     = min limit (Pagination.total (ReviewList.pagination body) - offset).
Proof.
  intros Hlimit. rewrite !getStoreReviews_run.
  destruct (parseInt storeId) as [sid|]; [|discriminate].
  simpl. intros [= <- _] [= <- _]. simpl.
  set (rows := store_reviews sid (orderBy_of sortBy)).
  split.
  - rewrite Nat.ltb_lt. split.
    + intros Hlt Hnil. apply (f_equal length) in Hnil.
      unfold formattedReviews in Hnil.
      rewrite length_imap, length_take, length_drop in Hnil. simpl in Hnil. lia.
    + intros Hne. destruct (decide (offset + limit < length rows)%nat) as [|Hge];
        [assumption|].
      exfalso. apply Hne. rewrite drop_ge by lia. now rewrite take_nil.
  - unfold formattedReviews. now rewrite length_imap, length_take, length_drop.
Qed.

(** After a 200 from the unlock handler, the list route serves that user
    the store's page unlocked, every review in full. *)
Theorem getStoreReviews_after_unlock (now : Z) (u : Viewer.t)
    (storeId sortBy : string) (limit offset : nat) (db : Db)
    (res : UnlockResponse) (db' : Db) :
  unlockHandler parseInt now (Viewer.id u) storeId db = (Some res, db') ->
  status res = 200%Z ->
  exists sid body,
    parseInt storeId = Some sid
    /\ getReviews (Some u) storeId sortBy limit offset db' = (Some (ListOk body), db')
    /\ ReviewList.isUnlocked body = true
    /\ Forall2 unredacted
         (take limit (drop offset (store_reviews sid (orderBy_of sortBy))))
         (ReviewList.data body).
Proof.
  rewrite unlockHandler_run, getStoreReviews_run.
  destruct (parseInt storeId) as [sid|]; [|now intros [= <- <-]].
  destruct (gameBusiness db !! sid) as [name|]; [|now intros [= <- <-]].
  intros Hrun _.
  assert (resolved (Some u) sid db' = true) as Hres.
  { unfold resolved.
    destruct (List.find _ (userUnlockedStoreReview db)) as [existing|] eqn:Hfind;
      injection Hrun as _ <-; simpl.
    - now rewrite Hfind.
    - now rewrite (find_app_new _ _ _ Hfind) by (apply same_key_spec; now split). }
  cbv zeta. rewrite Hres.
  exists sid. eexists. split; [reflexivity|]. split; [reflexivity|].
  split; [reflexivity|].
  apply formattedReviews_Forall2. intros i r. apply baseReview_unredacted.
Qed.

(** A request without a user is served locked whatever the ledger holds:
    every review after the first of the page is blinded. *)
Theorem getStoreReviews_anonymous (storeId sortBy : string) (sid : Z)
    (limit offset : nat) (db : Db) :
  parseInt storeId = Some sid ->
  exists body,
    getReviews None storeId sortBy limit offset db = (Some (ListOk body), db)
    /\ ReviewList.isUnlocked body = false
    /\ forall i out,
         (1 <= i)%nat -> ReviewList.data body !! i = Some out ->
         Formatted.isBlinded out = true
         /\ Formatted.content out = blind_placeholder
         /\ Formatted.isOwner out = None.
Proof.
  intros Hparse. rewrite getStoreReviews_run, Hparse. simpl.
  eexists. split; [reflexivity|]. split; [reflexivity|]. simpl.
  intros i out Hi. rewrite formattedReviews_lookup.
  destruct (_ !! i) as [r|]; [|discriminate]. simpl.
  rewrite formatReview_locked_rest by exact Hi. now intros [= <-].
Qed.

End ReviewListClaims.

(* ===================================================================== *)
(** * Part VII. Top catchers and rating statistics *)
(* ===================================================================== *)

Section MaskFacts.

Lemma phoneDigits_are_digits (phone : string) (c : Ascii.ascii) :
  In c (phoneDigits_of phone) -> is_digit c = true.
Proof. unfold phoneDigits_of. now intros [_ H]%filter_In. Qed.

Lemma truthy_string_Some (s t : string) :
  truthy_string (Some s) = Some t -> s = t /\ s <> "".
Proof.
  simpl. destruct (String.eqb_spec s ""); [discriminate|].
  now intros [= ->].
Qed.

(** The last four of at least four. *)
Lemma last_four {A} (l : list A) :
  (4 <= length l)%nat ->
  exists pre a b c d, l = pre ++ [a; b; c; d].
Proof.
  intros Hl. exists (take (length l - 4) l).
  pose proof (take_drop (length l - 4) l) as Htd.
  pose proof (length_drop l (length l - 4)) as Hd.
  destruct (drop (length l - 4) l) as [|a [|b [|c [|d [|e k]]]]];
    simpl in Hd; try lia.
  exists a, b, c, d. now symmetry.
Qed.

Lemma maskPhone_last_four (p : string) (pre : list Ascii.ascii)
    (a b c d : Ascii.ascii) :
  phoneDigits_of p = pre ++ [a; b; c; d] ->
  maskPhone (Some p) = String a (String b "**").
Proof.
  intros Hd. unfold maskPhone, truthy_string.
  destruct (String.eqb_spec p "") as [->|_]; [now destruct pre|].
  cbv zeta. rewrite Hd, length_app. change (length [a; b; c; d]) with 4%nat.
  replace (4 <=? length pre + 4)%nat with true by (symmetry; apply Nat.leb_le; lia).
  replace (length pre + 4 - 4)%nat with (length pre) by lia.
  rewrite drop_app_length. reflexivity.
Qed.

End MaskFacts.

Section MaskClaims.

(** The masked phone is always four characters: either four stars, or
    two digits followed by two stars. *)
Theorem maskPhone_shape (phone : option string) :
  String.length (maskPhone phone) = 4%nat
  /\ (maskPhone phone = "****"
      \/ exists a b,
           maskPhone phone = String a (String b "**")
           /\ is_digit a = true /\ is_digit b = true).
Proof.
  assert (maskPhone phone = "****"
          \/ exists p pre a b c d,
               phoneDigits_of p = pre ++ [a; b; c; d]
               /\ maskPhone phone = String a (String b "**")) as [->|H].
  { destruct (truthy_string phone) as [p|] eqn:Hp;
      [|left; unfold maskPhone; now rewrite Hp].
    destruct phone as [q|]; [|discriminate].
    pose proof (truthy_string_Some _ _ Hp) as [-> _].
    destruct (le_lt_dec 4 (length (phoneDigits_of p))) as [Hlen|Hlen].
    - destruct (last_four _ Hlen) as (pre & a & b & c & d & Hd).
      right. exists p, pre, a, b, c, d. split; [exact Hd|].
      now apply (maskPhone_last_four p pre a b c d).
    - left. unfold maskPhone. rewrite Hp.
      now replace (4 <=? length (phoneDigits_of p))%nat with false
        by (symmetry; apply Nat.leb_gt; lia). }
  - split; [reflexivity|]. now left.
  - destruct H as (p & pre & a & b & c & d & Hd & ->).
    split; [reflexivity|]. right. exists a, b. split; [reflexivity|].
    split; apply (phoneDigits_are_digits p); rewrite Hd, in_app_iff; right;
      simpl; auto.
Qed.

(** Only the fourth- and third-from-last digits are shown: whatever the
    separators and whatever the other digits, a phone whose digits end in
    a, b, c, d is masked as a b * *; a phone with fewer than four digits
    is masked as four stars. *)
Theorem maskPhone_reveals (p : string) :
  (forall pre a b c d,
      phoneDigits_of p = pre ++ [a; b; c; d] ->
      maskPhone (Some p) = String a (String b "**"))
  /\ ((length (phoneDigits_of p) < 4)%nat -> maskPhone (Some p) = "****").
Proof.
  split; [apply maskPhone_last_four|].
  intros Hlen. unfold maskPhone. destruct (truthy_string (Some p)) as [q|] eqn:Hq;
    [|reflexivity].
  apply truthy_string_Some in Hq as [<- _].
  now replace (4 <=? length (phoneDigits_of p))%nat with false
    by (symmetry; apply Nat.leb_gt; lia).
Qed.

End MaskClaims.

Section CatcherClaims.

Variable users : list Account.t.
Variable ranked : list Aggregate.t.
Variable others : list string -> list Aggregate.t.
Variable shuffle : list Catcher.t -> list Catcher.t.

(** The response never lists more than three users, and the entry at
    position i carries rank i + 1, whatever the order the random sort
    leaves. *)
Theorem formattedCatchers_ranks :
  (length (formattedCatchers users ranked others shuffle) <= 3)%nat
  /\ forall i c,
       formattedCatchers users ranked others shuffle !! i = Some c ->
       RankedCatcher.rank c = (i + 1)%nat.
Proof.
  split.
  - unfold formattedCatchers. rewrite length_imap. unfold allCatchers.
    set (top := toCatcher _ <$> take 3 ranked).
    assert (length top <= 3)%nat as Htop.
    { unfold top. rewrite length_fmap, length_take. lia. }
    destruct (length top <? 3)%nat; [|exact Htop].
    rewrite length_app, length_take. lia.
  - intros i c. unfold formattedCatchers. rewrite list_lookup_imap.
    destruct (_ !! i); [|discriminate]. now intros [= <-].
Qed.

(** When the random sort keeps the length of its array, the response has
    three entries as soon as the two queries together found three groups,
    and otherwise one entry per group found. *)
Theorem formattedCatchers_length :
  (forall l, length (shuffle l) = length l) ->
  length (formattedCatchers users ranked others shuffle)
  = min 3 (length ranked + length (others (truthy_ids (take 3 ranked)))).
Proof.
  intros Hshuffle. unfold formattedCatchers. rewrite length_imap.
  unfold allCatchers.
  assert (Catcher.userId <$> (toCatcher (users_in users (truthy_ids (take 3 ranked)))
                                <$> take 3 ranked)
          = Aggregate.userId <$> take 3 ranked) as Hids.
  { rewrite <- list_fmap_compose. now apply list_fmap_ext. }
  rewrite Hids. fold (truthy_ids (take 3 ranked)).
  rewrite !length_fmap, length_take.
  destruct (min 3 (length ranked) <? 3)%nat eqn:Hlt.
  - apply Nat.ltb_lt in Hlt.
    rewrite length_app, length_take, Hshuffle, !length_fmap, length_take. lia.
  - apply Nat.ltb_ge in Hlt. rewrite length_fmap, length_take. lia.
Qed.

End CatcherClaims.

Section StatsClaims.

Local Notation step := (fun (dist : gmap Z nat) (stat : Z * nat) => <[stat.1 := stat.2]> dist).

Lemma foldl_insert_other (stats : list (Z * nat)) (m : gmap Z nat) (r : Z) :
  r ∉ stats.*1 -> foldl step m stats !! r = m !! r.
Proof.
  revert m. induction stats as [|[r' c'] stats IH]; intros m Hr; [reflexivity|].
  simpl in *. apply not_elem_of_cons in Hr as [Hne Hr].
  rewrite IH by exact Hr. now rewrite lookup_insert_ne.
Qed.

(** With one group per rating, as [groupBy] answers: the distribution
    holds each group's count under its rating, 0 under each of 1 to 5
    that has no group, and no other key. *)
Theorem ratingDistribution_lookup (stats : list (Z * nat)) :
  NoDup stats.*1 ->
  (forall r c, (r, c) ∈ stats -> ratingDistribution stats !! r = Some c)
  /\ (forall r, r ∉ stats.*1 ->
        ratingDistribution stats !! r
        = if decide (1 <= r <= 5)%Z then Some 0%nat else None).
Proof.
  intros Hnd. unfold ratingDistribution. split.
  - generalize (list_to_map [(1, 0%nat); (2, 0%nat); (3, 0%nat); (4, 0%nat); (5, 0%nat)]%Z
                  : gmap Z nat).
    induction stats as [|[r' c'] stats IH]; intros m r c Hin.
    + now apply elem_of_nil in Hin.
    + simpl in Hnd. apply NoDup_cons in Hnd as [Hnotin Hnd].
      apply elem_of_cons in Hin as [[= -> ->]|Hin]; simpl.
      * rewrite foldl_insert_other by exact Hnotin. apply lookup_insert_eq.
      * now apply IH.
  - intros r Hr. rewrite foldl_insert_other by exact Hr. simpl.
    destruct (decide (1 <= r <= 5)%Z) as [Hin|Hout].
    + assert (r = 1 \/ r = 2 \/ r = 3 \/ r = 4 \/ r = 5)%Z
        as [->|[->|[->|[->| ->]]]] by lia; reflexivity.
    + rewrite !lookup_insert_ne by lia. apply lookup_empty.
Qed.

End StatsClaims.

(* ===================================================================== *)
(** * Part VIII. The transformer on its own output *)
(* ===================================================================== *)


Section FloatOrder.





End FloatOrder.

Section TransformerAgain.

Variable parse_text : string -> float.
Variable proj4 : projector.

Local Notation toGeo := (tmToWgs84 parse_text proj4).
Local Notation parse := (Js.parseFloat parse_text).




End TransformerAgain.

(* ===================================================================== *)
(** * Part IX. Favorites *)
(* ===================================================================== *)

Section ListMoreFacts.

Lemma NoDup_fmap_filter {A B} (f : A -> B) (g : A -> bool) (l : list A) :
  NoDup (f <$> l) -> NoDup (f <$> List.filter g l).
Proof.
  induction l as [|a l IH]; [auto|].
  rewrite fmap_cons. intros [Ha Hl]%NoDup_cons. cbn [List.filter].
  destruct (g a); [|now apply IH].
  rewrite fmap_cons. apply NoDup_cons. split; [|now apply IH].
  intros [b [Hb Hin]]%list_elem_of_fmap. apply Ha.
  apply list_elem_of_fmap. exists b. split; [exact Hb|].
  apply list_elem_of_In. apply list_elem_of_In in Hin.
  now apply filter_In in Hin as [Hin _].
Qed.

Lemma NoDup_fmap_eq {A B} (f : A -> B) (l : list A) (x y : A) :
  NoDup (f <$> l) -> x ∈ l -> y ∈ l -> f x = f y -> x = y.
Proof.
  induction l as [|a l IH]; [now intros _ ?%elem_of_nil|].
  rewrite fmap_cons. intros [Ha Hl]%NoDup_cons.
  intros [->|Hx]%elem_of_cons [->|Hy]%elem_of_cons Hf; auto.
  - exfalso. apply Ha. rewrite Hf. now apply list_elem_of_fmap_2.
  - exfalso. apply Ha. rewrite <- Hf. now apply list_elem_of_fmap_2.
Qed.

Lemma filter_all {A} (g : A -> bool) (l : list A) :
  (forall x, x ∈ l -> g x = true) -> List.filter g l = l.
Proof.
  induction l as [|a l IH]; intros H; simpl; [reflexivity|].
  rewrite (H a) by apply list_elem_of_here. f_equal. apply IH.
  intros x Hx. apply H. now apply list_elem_of_further.
Qed.

Lemma find_none_iff {A} (f : A -> bool) (l : list A) :
  List.find f l = None <-> forall x, x ∈ l -> f x = false.
Proof.
  split.
  - intros H x Hx. apply (find_none _ _ H). now apply list_elem_of_In.
  - intros H. induction l as [|a l IH]; simpl; [reflexivity|].
    rewrite (H a) by apply list_elem_of_here. apply IH.
    intros x Hx. apply H. now apply list_elem_of_further.
Qed.

End ListMoreFacts.

Section FavoritesFacts.

Variable FavoriteId : Type.
Context `{EqDecision FavoriteId}.
Variable id_truthy : FavoriteId -> bool.
Variable new_id : list (FavoriteId * string * Z) -> FavoriteId.

Local Notation add := (addFavorite FavoriteId new_id).
Local Notation remove := (removeFavorite FavoriteId).
Local Notation check := (checkFavorite FavoriteId id_truthy).
Local Notation key := (fav_key FavoriteId).
Local Notation Row := (FavoriteRow FavoriteId).

Lemma fav_key_spec (uid : string) (sid : Z) (row : Row) :
  key uid sid row = true
  <-> fav_userId FavoriteId row = uid /\ fav_storeId FavoriteId row = sid.
Proof.
  unfold fav_key. rewrite andb_true_iff, !bool_decide_eq_true. reflexivity.
Qed.

(** What a 201 from POST means for the table. *)
Lemma addFavorite_created (userId : option string) (storeId : option Z)
    (db db' : FavDb FavoriteId) (id : FavoriteId) (name : string) :
  add userId storeId db = (Fav201 FavoriteId id name, db') ->
  exists uid sid,
    valid_user userId = Some uid /\ valid_store storeId = Some sid
    /\ fav_stores FavoriteId db !! sid = Some name
    /\ favorite_findUnique FavoriteId uid sid db = None
    /\ id = new_id (favorite FavoriteId db)
    /\ db' = {| fav_stores := fav_stores FavoriteId db;
                favorite := favorite FavoriteId db ++ [(id, uid, sid)] |}.
Proof.
  unfold addFavorite.
  destruct (valid_user userId) as [uid|]; [|discriminate].
  destruct (valid_store storeId) as [sid|]; [|discriminate].
  destruct (fav_stores FavoriteId db !! sid) as [storeName|] eqn:Hstore;
    [|discriminate].
  destruct (favorite_findUnique FavoriteId uid sid db) eqn:Hfind; [discriminate|].
  destruct (existsb _ _); [discriminate|].
  intros [= <- <- <-]. exists uid, sid. repeat split; assumption || reflexivity.
Qed.

End FavoritesFacts.

Section FavoritesClaims.

Variable FavoriteId : Type.
Context `{EqDecision FavoriteId}.
Variable id_truthy : FavoriteId -> bool.
Variable new_id : list (FavoriteId * string * Z) -> FavoriteId.

Local Notation add := (addFavorite FavoriteId new_id).
Local Notation remove := (removeFavorite FavoriteId).
Local Notation check := (checkFavorite FavoriteId id_truthy).

(** Adding is not idempotent: after a 201, the same request answers 409
    and writes nothing, and the check route reports the favorite with the
    id the 201 carried. *)
Theorem addFavorite_twice (userId : option string) (storeId : option Z)
    (db db' : FavDb FavoriteId) (id : FavoriteId) (name : string) :
  add userId storeId db = (Fav201 FavoriteId id name, db') ->
  add userId storeId db' = (Fav409 FavoriteId, db')
  /\ check userId storeId db'
     = (Fav200_check FavoriteId true (if id_truthy id then Some id else None), db').
Proof.
  intros (uid & sid & Hu & Hs & Hstore & Hfind & -> & ->)%addFavorite_created.
  assert (favorite_findUnique FavoriteId uid sid
            {| fav_stores := fav_stores FavoriteId db;
               favorite := favorite FavoriteId db
                           ++ [(new_id (favorite FavoriteId db), uid, sid)] |}
          = Some (new_id (favorite FavoriteId db), uid, sid)) as Hnew.
  { unfold favorite_findUnique. simpl. apply find_app_new; [exact Hfind|].
    now apply fav_key_spec. }
  unfold addFavorite, checkFavorite. rewrite Hu, Hs. simpl fav_stores.
  rewrite Hstore, Hnew. split; reflexivity.
Qed.

(** Adding and then removing restores the table, when the database gave
    the new row an id that no row had. *)
Theorem addFavorite_then_remove (userId : option string) (storeId : option Z)
    (db db' : FavDb FavoriteId) (id : FavoriteId) (name : string) :
  new_id (favorite FavoriteId db) ∉ fav_id FavoriteId <$> favorite FavoriteId db ->
  add userId storeId db = (Fav201 FavoriteId id name, db') ->
  remove userId storeId db' = (Fav200_deleted FavoriteId name, db).
Proof.
  intros Hfresh (uid & sid & Hu & Hs & Hstore & Hfind & -> & ->)%addFavorite_created.
  unfold removeFavorite. rewrite Hu, Hs.
  unfold favorite_findUnique in *. simpl favorite.
  rewrite (find_app_new _ _ _ Hfind) by now apply fav_key_spec.
  simpl. rewrite Hstore. f_equal. destruct db as [stores rows]. simpl in *.
  f_equal. rewrite List.filter_app. simpl.
  rewrite bool_decide_eq_true_2 by reflexivity. simpl. rewrite app_nil_r.
  apply filter_all. intros row Hrow. apply negb_true_iff, bool_decide_eq_false_2.
  intros Heq. apply Hfresh. apply list_elem_of_fmap. now exists row.
Qed.

(** After a 200 from DELETE on a table with unique keys, the check route
    reports no favorite. *)
Theorem removeFavorite_then_check (userId : option string) (storeId : option Z)
    (db db' : FavDb FavoriteId) (name : string) :
  favorites_consistent FavoriteId db ->
  remove userId storeId db = (Fav200_deleted FavoriteId name, db') ->
  check userId storeId db' = (Fav200_check FavoriteId false None, db').
Proof.
  intros [_ Hkeys]. unfold removeFavorite, checkFavorite.
  destruct (valid_user userId) as [uid|]; [|discriminate].
  destruct (valid_store storeId) as [sid|]; [|discriminate].
  destruct (favorite_findUnique FavoriteId uid sid db) as [row|] eqn:Hfind;
    [|discriminate].
  destruct (fav_stores FavoriteId db !! _); [|discriminate].
  intros [= _ <-].
  assert (favorite_findUnique FavoriteId uid sid
            {| fav_stores := fav_stores FavoriteId db;
               favorite := List.filter
                 (fun r => negb (bool_decide (fav_id FavoriteId r = fav_id FavoriteId row)))
                 (favorite FavoriteId db) |} = None) as ->; [|reflexivity].
  unfold favorite_findUnique in *. simpl. apply find_none_iff.
  intros r [Hr Hkeep]%list_elem_of_In%filter_In. apply list_elem_of_In in Hr.
  apply not_true_is_false. intros [Hu Hs]%fav_key_spec.
  apply find_some in Hfind as [Hrow [Hu' Hs']%fav_key_spec].
  apply list_elem_of_In in Hrow.
  assert (r = row) as ->.
  { apply (NoDup_fmap_eq _ _ _ _ Hkeys Hr Hrow). simpl. congruence. }
  now rewrite bool_decide_eq_true_2 in Hkeep by reflexivity.
Qed.

(** Both writes keep ids and (userId, storeId) pairs unique, as long as
    new ids are fresh. *)
Theorem favorites_consistent_kept (userId : option string) (storeId : option Z)
    (db : FavDb FavoriteId) :
  new_id (favorite FavoriteId db) ∉ fav_id FavoriteId <$> favorite FavoriteId db ->
  favorites_consistent FavoriteId db ->
  favorites_consistent FavoriteId (add userId storeId db).2
  /\ favorites_consistent FavoriteId (remove userId storeId db).2.
Proof.
  intros Hfresh [Hids Hkeys]. split.
  - unfold addFavorite.
    destruct (valid_user userId) as [uid|]; [|now split].
    destruct (valid_store storeId) as [sid|]; [|now split].
    destruct (fav_stores FavoriteId db !! sid); [|now split].
    destruct (favorite_findUnique FavoriteId uid sid db) eqn:Hfind; [now split|].
    destruct (existsb _ _); [now split|].
    split; simpl; rewrite fmap_app; apply NoDup_app; (split; [assumption|]);
      (split; [|apply NoDup_singleton]); intros k Hk ->%list_elem_of_singleton.
    + now apply Hfresh.
    + apply list_elem_of_fmap in Hk as [r [Hk Hr]].
      unfold favorite_findUnique in Hfind.
      pose proof (proj1 (find_none_iff _ _) Hfind r Hr) as Hf.
      injection Hk as Hu Hs.
      assert (fav_key FavoriteId uid sid r = true) by (apply fav_key_spec; now split).
      congruence.
  - unfold removeFavorite.
    destruct (valid_user userId) as [uid|]; [|now split].
    destruct (valid_store storeId) as [sid|]; [|now split].
    destruct (favorite_findUnique FavoriteId uid sid db) as [row|]; [|now split].
    destruct (fav_stores FavoriteId db !! _); split; simpl;
      now apply NoDup_fmap_filter.
Qed.

(** A store id that parses to NaN or to 0 is refused with 400 by all
    three routes before the database is touched, whether or not a store
    with id 0 exists; a request without a user id gets 401 before that. *)
Theorem favorites_invalid_request (userId : option string) (storeId : option Z)
    (db : FavDb FavoriteId) :
  (valid_user userId = None ->
     add userId storeId db = (Fav401 FavoriteId, db)
     /\ remove userId storeId db = (Fav401 FavoriteId, db)
     /\ check userId storeId db = (Fav401 FavoriteId, db))
  /\ (valid_user userId <> None -> storeId = None \/ storeId = Some 0%Z ->
        add userId storeId db = (Fav400 FavoriteId, db)
        /\ remove userId storeId db = (Fav400 FavoriteId, db)
        /\ check userId storeId db = (Fav400 FavoriteId, db)).
Proof.
  unfold addFavorite, removeFavorite, checkFavorite. split.
  - now intros ->.
  - intros Hu Hs. destruct (valid_user userId) as [uid|]; [|congruence].
    now destruct Hs as [-> | ->].
Qed.

End FavoritesClaims.

(* ===================================================================== *)
(** * Part X. The coordinates of an ad *)
(* ===================================================================== *)

Section AdCoordinates.

Variable parse_text : string -> float.
Variable proj4 : projector.

Local Notation toGeo := (tmToWgs84 parse_text proj4).
Local Notation parse := (Js.parseFloat parse_text).

Lemma toGeo_zero_easting (x y : Js.value) :
  PrimFloat.is_zero (parse x) = true -> toGeo x y = seoul.
Proof.
  intros [s0 Hz]%is_zero_spec.
  destruct (not_usable (parse x) (parse y)) eqn:Hus; [now apply toGeo_unusable|].
  apply toGeo_out_of_range.
  - unfold already_wgs84, Js.ge, Js.le. rewrite (FloatAxioms.leb_spec 100), Hz.
    reflexivity.
  - unfold outside_tm_range, Js.lt. rewrite (FloatAxioms.ltb_spec _ 50000), Hz.
    reflexivity.
Qed.

Lemma toGeo_falsy (x y : Js.value) :
  Js.isFinite (parse_text "") = false ->
  js_truthy x = false \/ js_truthy y = false /\ PrimFloat.is_zero (parse y) = false ->
  toGeo x y = seoul.
Proof.
  intros Hempty [Hx|[Hy Hz]].
  - destruct x as [f|s0|]; simpl in Hx.
    + apply negb_false_iff, orb_true_iff in Hx as [Hx|Hx].
      * apply toGeo_zero_easting. simpl. now rewrite Hx.
      * apply toGeo_unusable. unfold not_usable, Js.isNaN. simpl.
        assert (is_zero f = false) as ->.
        { destruct (is_zero f) eqn:Hz; [|reflexivity].
          apply is_zero_is_finite, is_finite_not_nan in Hz. congruence. }
        rewrite Hx. now rewrite !orb_true_r.
    + apply negb_false_iff, String.eqb_eq in Hx as ->.
      apply toGeo_unusable, not_usable_not_finite. now left.
    + now apply toGeo_unusable.
  - apply toGeo_unusable. destruct y as [f|s0|]; simpl in Hy, Hz |- *.
    + destruct (is_zero f) eqn:Hzf; [discriminate Hz|].
      apply negb_false_iff in Hy. simpl in Hy.
      unfold not_usable, Js.isNaN. rewrite Hy. now rewrite !orb_true_r.
    + apply negb_false_iff, String.eqb_eq in Hy as ->.
      apply not_usable_not_finite. now right.
    + apply not_usable_not_finite. now right.
Qed.

(** The truthiness guard of the ad list changes nothing unless the y
    column is a zero: for every other store row the ad gets exactly what
    the transformer gives for its columns (the empty string being read as
    no number). *)
Theorem adCoordinates_is_tmToWgs84 (x y : Js.value) :
  Js.isFinite (parse_text "") = false ->
  PrimFloat.is_zero (parse y) = false ->
  adCoordinates parse_text proj4 (Some (x, y)) = toGeo x y.
Proof.
  intros Hempty Hz. unfold adCoordinates.
  destruct (js_truthy x) eqn:Hx; [destruct (js_truthy y) eqn:Hy|]; simpl.
  - reflexivity.
  - symmetry. apply toGeo_falsy; auto.
  - symmetry. apply toGeo_falsy; auto.
Qed.

End AdCoordinates.

(* ===================================================================== *)
(** * Part XI. Concrete runs of the further handlers *)
(* ===================================================================== *)

Lemma gate_locked_hides_content_witness :
  formattedReviews (Some bob) false [R0; R1]
  = formattedReviews (Some bob) false [R0; R1_edited].
Proof.
  apply (gate_locked_hides_content (Some bob) R0 [R1] [R1_edited]).
  constructor; [repeat split|constructor].
Defined.

Lemma gate_locked_one_readable_witness :
  length (filter (fun out => Formatted.isBlinded out = false)
            (formattedReviews None false [R0; R1; R2])) = 1%nat.
Proof.
  apply (gate_locked_one_readable None [R0; R1; R2]). discriminate.
Defined.

Lemma unlockHandler_consistent_witness :
  ledger_consistent
    (unlockHandler sample_parseInt 1700009999 "clx-bob" "7" sample_db).2.
Proof.
  apply (unlockHandler_consistent sample_parseInt 1700009999 "clx-bob" "7" sample_db).
  exact sample_db_consistent.
Defined.

Lemma unlockHandler_twice_witness :
  exists res',
    unlockHandler sample_parseInt 1700020000 "clx-bob" "7"
      (unlockHandler sample_parseInt 1700009999 "clx-bob" "7" sample_db).2
    = (Some res', (unlockHandler sample_parseInt 1700009999 "clx-bob" "7" sample_db).2)
    /\ status res' = 200%Z /\ success res' = Some true
    /\ data res' = Some (true, 1700009999%Z).
Proof.
  apply (unlockHandler_twice sample_parseInt 1700009999 1700020000 "clx-bob" "7"
           sample_db (res_unlocked 1700009999)).
  - rewrite unlockHandler_run. reflexivity.
  - reflexivity.
Defined.

Lemma unlockStatus_after_unlock_witness :
  exists unlockedAt,
    data (res_unlocked 1700009999) = Some (true, unlockedAt)
    /\ unlockStatusHandler sample_parseInt "clx-bob" "7"
         (unlockHandler sample_parseInt 1700009999 "clx-bob" "7" sample_db).2
       = (Some {| StatusResponse.status := 200;
                  StatusResponse.success := Some true;
                  StatusResponse.data := Some (true, Some unlockedAt) |},
          (unlockHandler sample_parseInt 1700009999 "clx-bob" "7" sample_db).2).
Proof.
  apply (unlockStatus_after_unlock sample_parseInt 1700009999 "clx-bob" "7" sample_db).
  - rewrite unlockHandler_run. reflexivity.
  - reflexivity.
Defined.

Lemma unlockStatus_frame_witness :
  (unlockStatusHandler sample_parseInt "clx-alice" "7"
     (unlockHandler sample_parseInt 1700009999 "clx-bob" "7" sample_db).2).1
  = (unlockStatusHandler sample_parseInt "clx-alice" "7" sample_db).1.
Proof.
  apply (unlockStatus_frame sample_parseInt 1700009999 "clx-bob" "7" "clx-alice" "7").
  left. discriminate.
Defined.

Lemma getStoreReviews_page_of_one_witness :
  exists body out,
    getStoreReviews sample_parseInt sample_store_reviews None "7" "latest" 1 2 sample_db
    = (Some (ListOk body), sample_db)
    /\ ReviewList.data body = [out]
    /\ unredacted R2 out.
Proof.
  apply (getStoreReviews_page_of_one sample_parseInt sample_store_reviews None
           "7" "latest" 7 2 R2 sample_db); reflexivity.
Defined.

Lemma getStoreReviews_hasMore_witness :
  exists body next,
    getStoreReviews sample_parseInt sample_store_reviews None "7" "latest" 2 0 sample_db
    = (Some (ListOk body), sample_db)
    /\ getStoreReviews sample_parseInt sample_store_reviews None "7" "latest" 2 2 sample_db
       = (Some (ListOk next), sample_db)
    /\ (Pagination.hasMore (ReviewList.pagination body) = true
        <-> ReviewList.data next <> [])
    /\ length (ReviewList.data body)
       = min 2 (Pagination.total (ReviewList.pagination body) - 0).
Proof.
  eexists. eexists. split; [rewrite getStoreReviews_run; reflexivity|].
  split; [rewrite getStoreReviews_run; reflexivity|].
  apply (getStoreReviews_hasMore sample_parseInt sample_store_reviews None
           "7" "latest" 2 0 sample_db sample_db sample_db).
  - lia.
  - rewrite getStoreReviews_run. reflexivity.
  - rewrite getStoreReviews_run. reflexivity.
Defined.

Lemma getStoreReviews_after_unlock_witness :
  exists sid body,
    sample_parseInt "7" = Some sid
    /\ getStoreReviews sample_parseInt sample_store_reviews (Some bob) "7" "latest" 20 0
         (unlockHandler sample_parseInt 1700009999 "clx-bob" "7" sample_db).2
       = (Some (ListOk body),
          (unlockHandler sample_parseInt 1700009999 "clx-bob" "7" sample_db).2)
    /\ ReviewList.isUnlocked body = true
    /\ Forall2 unredacted
         (take 20 (drop 0 (sample_store_reviews sid (orderBy_of "latest"))))
         (ReviewList.data body).
Proof.
  apply (getStoreReviews_after_unlock sample_parseInt sample_store_reviews
           1700009999 bob "7" "latest" 20 0 sample_db (res_unlocked 1700009999)).
  - rewrite unlockHandler_run. reflexivity.
  - reflexivity.
Defined.

Lemma getStoreReviews_anonymous_witness :
  exists body,
    getStoreReviews sample_parseInt sample_store_reviews None "7" "rating_low" 20 0
      sample_db
    = (Some (ListOk body), sample_db)
    /\ ReviewList.isUnlocked body = false
    /\ forall i out,
         (1 <= i)%nat -> ReviewList.data body !! i = Some out ->
         Formatted.isBlinded out = true
         /\ Formatted.content out = blind_placeholder
         /\ Formatted.isOwner out = None.
Proof.
  apply (getStoreReviews_anonymous sample_parseInt sample_store_reviews
           "7" "rating_low" 7 20 0 sample_db).
  reflexivity.
Defined.

Lemma maskPhone_reveals_witness :
  maskPhone (Some "010-1234-5678") = "56**"
  /\ maskPhone (Some "+82 10 5555 0199") = "01**"
  /\ maskPhone (Some "12-3") = "****".
Proof.
  split; [|split].
  - eapply (proj1 (maskPhone_reveals "010-1234-5678")
              (String.list_ascii_of_string "0101234")).
    reflexivity.
  - eapply (proj1 (maskPhone_reveals "+82 10 5555 0199")
              (String.list_ascii_of_string "82105555")).
    reflexivity.
  - apply (proj2 (maskPhone_reveals "12-3")). simpl. lia.
Defined.

Lemma formattedCatchers_length_witness :
  length (formattedCatchers sample_users sample_ranked sample_others reverse) = 3%nat.
Proof.
  apply (formattedCatchers_length sample_users sample_ranked sample_others reverse).
  intros l. apply length_reverse.
Defined.

Lemma ratingDistribution_lookup_witness :
  ratingDistribution [(5, 2%nat); (4, 1%nat); (0, 7%nat)]%Z !! 5%Z = Some 2%nat
  /\ ratingDistribution [(5, 2%nat); (4, 1%nat); (0, 7%nat)]%Z !! 3%Z = Some 0%nat
  /\ ratingDistribution [(5, 2%nat); (4, 1%nat); (0, 7%nat)]%Z !! 0%Z = Some 7%nat
  /\ ratingDistribution [(5, 2%nat); (4, 1%nat); (0, 7%nat)]%Z !! 6%Z = None.
Proof.
  assert (NoDup ([(5, 2%nat); (4, 1%nat); (0, 7%nat)]%Z).*1) as Hnd
    by compute_done.
  destruct (ratingDistribution_lookup _ Hnd) as [Hin Hout].
  split; [|split; [|split]].
  - apply Hin. compute_done.
  - apply (Hout 3%Z). compute_done.
  - apply Hin. compute_done.
  - apply (Hout 6%Z). compute_done.
Defined.


Lemma adCoordinates_is_tmToWgs84_witness :
  adCoordinates parse_unreadable proj4_linear (Some (Js.String "", Js.Number 450000))
  = tmToWgs84 parse_unreadable proj4_linear (Js.String "") (Js.Number 450000).
Proof.
  apply (adCoordinates_is_tmToWgs84 parse_unreadable proj4_linear); reflexivity.
Defined.

(** With a zero y column the guard does change the answer: the ad is put
    at the default although the transformer projects the row. *)
Example adCoordinates_zero_northing :
  adCoordinates parse_unreadable proj4_linear (Some (Js.Number 200000, Js.Number 0))
  = seoul
  /\ tmToWgs84 parse_unreadable proj4_linear (Js.Number 200000) (Js.Number 0)
     <> seoul.
Proof. split; [reflexivity|]. vm_compute. discriminate. Qed.

Lemma addFavorite_twice_witness :
  addFavorite Z sample_new_id (Some "clx-alice") (Some 7%Z)
    {| fav_stores := fav_stores Z sample_favorites;
       favorite := favorite Z sample_favorites ++ [(2%Z, "clx-alice", 7%Z)] |}
  = (Fav409 Z,
     {| fav_stores := fav_stores Z sample_favorites;
        favorite := favorite Z sample_favorites ++ [(2%Z, "clx-alice", 7%Z)] |})
  /\ checkFavorite Z sample_id_truthy (Some "clx-alice") (Some 7%Z)
       {| fav_stores := fav_stores Z sample_favorites;
          favorite := favorite Z sample_favorites ++ [(2%Z, "clx-alice", 7%Z)] |}
     = (Fav200_check Z true (if sample_id_truthy 2 then Some 2%Z else None),
        {| fav_stores := fav_stores Z sample_favorites;
           favorite := favorite Z sample_favorites ++ [(2%Z, "clx-alice", 7%Z)] |}).
Proof.
  apply (addFavorite_twice Z sample_id_truthy sample_new_id (Some "clx-alice")
           (Some 7%Z) sample_favorites _ 2%Z "인형뽑기방").
  reflexivity.
Defined.

Lemma addFavorite_then_remove_witness :
  removeFavorite Z (Some "clx-alice") (Some 7%Z)
    {| fav_stores := fav_stores Z sample_favorites;
       favorite := favorite Z sample_favorites ++ [(2%Z, "clx-alice", 7%Z)] |}
  = (Fav200_deleted Z "인형뽑기방", sample_favorites).
Proof.
  apply (addFavorite_then_remove Z sample_new_id (Some "clx-alice") (Some 7%Z)
           sample_favorites _ 2%Z "인형뽑기방").
  - compute_done.
  - reflexivity.
Defined.

Lemma sample_favorites_consistent : favorites_consistent Z sample_favorites.
Proof. split; simpl; apply NoDup_singleton. Defined.

Lemma removeFavorite_then_check_witness :
  checkFavorite Z sample_id_truthy (Some "clx-bob") (Some 7%Z)
    {| fav_stores := fav_stores Z sample_favorites; favorite := [] |}
  = (Fav200_check Z false None,
     {| fav_stores := fav_stores Z sample_favorites; favorite := [] |}).
Proof.
  apply (removeFavorite_then_check Z sample_id_truthy (Some "clx-bob") (Some 7%Z)
           sample_favorites _ "인형뽑기방").
  - exact sample_favorites_consistent.
  - reflexivity.
Defined.

Lemma favorites_consistent_kept_witness :
  favorites_consistent Z
    (addFavorite Z sample_new_id (Some "clx-alice") (Some 7%Z) sample_favorites).2
  /\ favorites_consistent Z
       (removeFavorite Z (Some "clx-alice") (Some 7%Z) sample_favorites).2.
Proof.
  apply (favorites_consistent_kept Z sample_new_id).
  - compute_done.
  - exact sample_favorites_consistent.
Defined.
